(** * Data-type descriptors of the abstract dialect

    A shallow embedding of [src/dialects/abstract/data-types.ts]:
    the JavaScript values the descriptors receive, the object heap on which
    their option bags live, and the methods of the STRING, NUMBER, FLOAT,
    DECIMAL, BOOLEAN, DATE, ENUM and ARRAY classes. *)

From Stdlib Require Import ZArith String Ascii List.
From stdpp Require Import base option list gmap strings pretty.

Local Open Scope string_scope.
Local Open Scope list_scope.

(** ** JavaScript values

    Numbers are IEEE doubles in the source.  The three non-finite doubles
    are kept apart, as the code tests for them; the finite ones are
    restricted to the integers, which print in plain decimal notation below
    [10^21]. *)
Inductive JSNumber :=
| NaN
| PosInfinity
| NegInfinity
| Finite (z : Z).

(** Objects are known by their address on the heap: two objects with equal
    contents are still two objects. *)
Abbreviation loc := nat.

Inductive JSValue :=
| VUndefined
| VNull
| VBool (b : bool)
| VNumber (n : JSNumber)
| VString (s : string)
| VRef (l : loc).

(** The kinds of object the descriptors look into, and [OOther] for an
    object of any other kind (a Moment, a Map, ...), of which they read
    nothing.  Functions are not among the values: where the source takes a
    class, the embedding takes its name. *)
Inductive HeapObj :=
| OPlain (props : gmap string JSValue)
| OArray (items : list JSValue)
| OBuffer (bytes : list Z)
| ODate (time : JSNumber)
| OOther.

Abbreviation Heap := (list HeapObj).

#[global] Instance JSNumber_eq_dec : EqDecision JSNumber.
Proof. solve_decision. Defined.

#[global] Instance JSValue_eq_dec : EqDecision JSValue.
Proof. solve_decision. Defined.

Definition num (z : Z) : JSValue := VNumber (Finite z).

(** ** Exceptions and the heap monad *)

(** A message is kept as its format and the values substituted into it
    ([util.format] or a template literal); the text of the substituted
    values is not computed. *)
Record Message := Msg { format : string; substituted : list JSValue }.

Inductive Exn :=
| TypeError (m : Message)
| ValidationError (m : Message).

Inductive Completion (A : Type) :=
| Normal (a : A)
| Throw (e : Exn).
Arguments Normal {A} a.
Arguments Throw {A} e.

(** A computation reads and extends the heap and either returns or throws;
    what it allocated before throwing stays allocated. *)
Definition M (A : Type) : Type := Heap -> Completion A * Heap.

#[global] Instance M_ret : MRet M := fun A a h => (Normal a, h).

#[global] Instance M_bind : MBind M := fun A B f m h =>
  match m h with
  | (Normal a, h') => f a h'
  | (Throw e, h') => (Throw e, h')
  end.

#[global] Instance M_fmap : FMap M := fun A B f m h =>
  match m h with
  | (Normal a, h') => (Normal (f a), h')
  | (Throw e, h') => (Throw e, h')
  end.

Definition throw {A} (e : Exn) : M A := fun h => (Throw e, h).

Definition gets {A} (f : Heap -> A) : M A := fun h => (Normal (f h), h).

(** [new]-ing an object or evaluating an object literal puts it at the next
    free address. *)
Definition alloc (o : HeapObj) : M loc := fun h => (Normal (length h), h ++ [o]).

(** [obj.k = v] on a plain object. *)
Definition set_prop (l : loc) (k : string) (v : JSValue) : M unit := fun h =>
  match h !! l with
  | Some (OPlain props) => (Normal tt, <[l := OPlain (<[k := v]> props)]> h)
  | _ => (Normal tt, h)
  end.

(** ** Operators of the language *)

Definition typeof (v : JSValue) : string :=
  match v with
  | VUndefined => "undefined"
  | VNull => "object"
  | VBool _ => "boolean"
  | VNumber _ => "number"
  | VString _ => "string"
  | VRef _ => "object"
  end.

(** [Boolean(v)], the test of [if], [!], [&&] and [||]. *)
Definition truthy (v : JSValue) : bool :=
  match v with
  | VUndefined | VNull => false
  | VBool b => b
  | VNumber NaN => false
  | VNumber (Finite z) => negb (Z.eqb z 0)
  | VNumber _ => true
  | VString s => negb (String.eqb s "")
  | VRef _ => true
  end.

(** [a === b]: the operands have one type and one value; [NaN] differs
    from itself, and objects are compared by address. *)
Definition Number_equal (x y : JSNumber) : bool :=
  match x, y with
  | Finite a, Finite b => Z.eqb a b
  | PosInfinity, PosInfinity => true
  | NegInfinity, NegInfinity => true
  | _, _ => false
  end.

Definition strict_eq (a b : JSValue) : bool :=
  match a, b with
  | VUndefined, VUndefined => true
  | VNull, VNull => true
  | VBool x, VBool y => Bool.eqb x y
  | VNumber x, VNumber y => Number_equal x y
  | VString x, VString y => String.eqb x y
  | VRef x, VRef y => Nat.eqb x y
  | _, _ => false
  end.

(** [v == null] *)
Definition nullish (v : JSValue) : bool :=
  match v with VUndefined | VNull => true | _ => false end.

(** [a ?? b] *)
Definition coalesce (a b : JSValue) : JSValue := if nullish a then b else a.

(** [a && b] *)
Definition js_and (a b : JSValue) : JSValue := if truthy a then b else a.

(** lodash's [isObject]: objects and functions, not [null]. *)
Definition isObject (v : JSValue) : bool :=
  match v with VRef _ => true | _ => false end.

Definition Array_isArray (h : Heap) (v : JSValue) : bool :=
  match v with
  | VRef l => match h !! l with Some (OArray _) => true | _ => false end
  | _ => false
  end.

Definition Buffer_isBuffer (h : Heap) (v : JSValue) : bool :=
  match v with
  | VRef l => match h !! l with Some (OBuffer _) => true | _ => false end
  | _ => false
  end.

(** [v instanceof Date] *)
Definition instanceof_Date (h : Heap) (v : JSValue) : bool :=
  match v with
  | VRef l => match h !! l with Some (ODate _) => true | _ => false end
  | _ => false
  end.

(** The own enumerable properties of an object, as a spread copies them. *)
Definition index_props (items : list JSValue) : gmap string JSValue :=
  list_to_map (imap (fun i v => (pretty i, v)) items).

Definition own_props (o : HeapObj) : gmap string JSValue :=
  match o with
  | OPlain props => props
  | OArray items => index_props items
  | OBuffer bytes => index_props (num <$> bytes)
  | ODate _ | OOther => ∅
  end.

Definition spread (h : Heap) (l : loc) : gmap string JSValue :=
  match h !! l with
  | Some o => own_props o
  | None => ∅
  end.

(** [obj.k] on an object: its own properties and the [length] of arrays and
    Buffers; what is absent reads as [undefined]. *)
Definition prop (h : Heap) (l : loc) (k : string) : JSValue :=
  match h !! l with
  | Some (OArray items) =>
      if String.eqb k "length" then num (Z.of_nat (length items))
      else default VUndefined (index_props items !! k)
  | Some (OBuffer bytes) =>
      if String.eqb k "length" then num (Z.of_nat (length bytes))
      else default VUndefined (index_props (num <$> bytes) !! k)
  | Some o => default VUndefined (own_props o !! k)
  | None => VUndefined
  end.

(** [v.k] on any value: reading a property of [undefined] or [null] is a
    TypeError of the engine. *)
Definition Get (v : JSValue) (k : string) : M JSValue :=
  match v with
  | VUndefined | VNull =>
      throw (TypeError (Msg "Cannot read properties of %s" [v; VString k]))
  | VString s =>
      mret (if String.eqb k "length" then num (Z.of_nat (String.length s))
            else VUndefined)
  | VBool _ | VNumber _ => mret VUndefined
  | VRef l => gets (fun h => prop h l k)
  end.

(** [v?.k], which cannot throw: [undefined] and [null] are short-circuited. *)
Definition Get_optional (h : Heap) (v : JSValue) (k : string) : JSValue :=
  match v with
  | VUndefined | VNull => VUndefined
  | VString s =>
      if String.eqb k "length" then num (Z.of_nat (String.length s))
      else VUndefined
  | VBool _ | VNumber _ => VUndefined
  | VRef l => prop h l k
  end.

(** The list a [for ... of] loop runs through; a string yields its
    characters, each a string. *)
Definition chars (s : string) : list JSValue :=
  (fun c => VString (String c EmptyString)) <$> list_ascii_of_string s.

Definition iterate (v : JSValue) : M (list JSValue) :=
  match v with
  | VString s => mret (chars s)
  | VRef l => fun h =>
      match h !! l with
      | Some (OArray items) => (Normal items, h)
      | Some (OBuffer bytes) => (Normal (num <$> bytes), h)
      | _ => (Throw (TypeError (Msg "%s is not iterable" [v])), h)
      end
  | _ => throw (TypeError (Msg "%s is not iterable" [v]))
  end.

(** ** What the module imports

    [Validator.isFloat] comes from [utils/validator-extras], [Number(string)]
    and the parsing of date strings from the engine, and the text of an
    object from its own [toString]; none of them is defined in
    [data-types.ts], so the descriptors take them from their host. *)
Class Host := {
  Validator_isFloat : string -> bool;
  StringToNumber : string -> JSNumber;
  Date_parse : string -> JSNumber;
  Object_toString : Heap -> loc -> string;
}.

Definition Number_toString (n : JSNumber) : string :=
  match n with
  | NaN => "NaN"
  | PosInfinity => "Infinity"
  | NegInfinity => "-Infinity"
  | Finite z => pretty z
  end.

(** [String(v)], also the conversion inside a template literal. *)
Definition String_of `{Host} (h : Heap) (v : JSValue) : string :=
  match v with
  | VUndefined => "undefined"
  | VNull => "null"
  | VBool true => "true"
  | VBool false => "false"
  | VNumber n => Number_toString n
  | VString s => s
  | VRef l => Object_toString h l
  end.

Definition Number_isNaN (n : JSNumber) : bool :=
  match n with NaN => true | _ => false end.

Definition Number_isFinite (n : JSNumber) : bool :=
  match n with Finite _ => true | _ => false end.

(** [n < 0] *)
Definition Number_negative (n : JSNumber) : bool :=
  match n with
  | NegInfinity => true
  | Finite z => Z.ltb z 0
  | _ => false
  end.

(** [{...v}] *)
Definition spread_value (h : Heap) (v : JSValue) : gmap string JSValue :=
  match v with
  | VRef l => spread h l
  | VString s => index_props (chars s)
  | _ => ∅
  end.

(** The [i]-th actual argument of a call; a missing one is [undefined]. *)
Definition arg (args : list JSValue) (i : nat) : JSValue :=
  default VUndefined (args !! i).

(** ** Descriptors

    A constructed descriptor is its class, from which its [key] and its
    methods follow, and the address of the object in [this.options]. *)
Inductive StringClass := STRING | CHAR.

Inductive NumberClass :=
| NUMBER | INTEGER | TINYINT | SMALLINT | MEDIUMINT | BIGINT
| FLOAT | REAL | DOUBLE
| DECIMAL.

Record Descriptor (C : Type) := Build { class_of : C; options : loc }.
Arguments Build {C} class_of options.
Arguments class_of {C} d.
Arguments options {C} d.

(** ** The numeric family *)

Definition NUMBER_key (c : NumberClass) : string :=
  match c with
  | NUMBER => "NUMBER"
  | INTEGER => "INTEGER"
  | TINYINT => "TINYINT"
  | SMALLINT => "SMALLINT"
  | MEDIUMINT => "MEDIUMINT"
  | BIGINT => "BIGINT"
  | FLOAT => "FLOAT"
  | REAL => "REAL"
  | DOUBLE => "DOUBLE"
  | DECIMAL => "DECIMAL"
  end.

(** [NUMBER]'s constructor (l. 415-424), which [INTEGER] and its subclasses
    inherit; it returns the address of [this.options]. *)
Definition NUMBER_constructor (optionsOrLength : JSValue) : M loc :=
  if isObject optionsOrLength then
    props ← gets (fun h => spread_value h optionsOrLength);
    alloc (OPlain props)
  else
    alloc (OPlain {[ "length" := optionsOrLength ]}).

(** [FLOAT]'s constructor (l. 558-560), inherited by [REAL] and [DOUBLE]. *)
Definition FLOAT_constructor (length decimals : JSValue) : M loc :=
  if String.eqb (typeof length) "object" then
    NUMBER_constructor length
  else
    bag ← alloc (OPlain (<["decimals" := decimals]> {[ "length" := length ]}));
    NUMBER_constructor (VRef bag).

(** [DECIMAL]'s constructor (l. 629-638): without an option bag it writes
    [precision] and [scale] into the options its parent made. *)
Definition DECIMAL_constructor (precisionOrOptions scale : JSValue) : M loc :=
  if isObject precisionOrOptions then
    NUMBER_constructor precisionOrOptions
  else
    this_options ← NUMBER_constructor VUndefined;
    set_prop this_options "precision" precisionOrOptions;;
    set_prop this_options "scale" scale;;
    mret this_options.

(** [new c(...args)] for a class [c] of the family. *)
Definition NUMBER_new (c : NumberClass) (args : list JSValue)
  : M (Descriptor NumberClass) :=
  this_options ←
    match c with
    | FLOAT | REAL | DOUBLE => FLOAT_constructor (arg args 0) (arg args 1)
    | DECIMAL => DECIMAL_constructor (arg args 0) (arg args 1)
    | _ => NUMBER_constructor (arg args 0)
    end;
  mret (Build c this_options).

(** [this._construct(...args)]: a new instance of the class of [this]. *)
Definition NUMBER__construct (this : Descriptor NumberClass)
  (args : list JSValue) : M (Descriptor NumberClass) :=
  NUMBER_new (class_of this) args.

(** [get UNSIGNED()] and [get ZEROFILL()] of an instance (l. 474-480): the
    object literal is a new object, into which [this.options] is spread. *)
Definition NUMBER_UNSIGNED (this : Descriptor NumberClass)
  : M (Descriptor NumberClass) :=
  copy ← gets (fun h => spread h (options this));
  bag ← alloc (OPlain (<["unsigned" := VBool true]> copy));
  NUMBER__construct this [VRef bag].

Definition NUMBER_ZEROFILL (this : Descriptor NumberClass)
  : M (Descriptor NumberClass) :=
  copy ← gets (fun h => spread h (options this));
  bag ← alloc (OPlain (<["zerofill" := VBool true]> copy));
  NUMBER__construct this [VRef bag].

(** [static get UNSIGNED()] and [static get ZEROFILL()] of a class
    (l. 482-488). *)
Definition NUMBER_static_UNSIGNED (c : NumberClass)
  : M (Descriptor NumberClass) :=
  bag ← alloc (OPlain {[ "unsigned" := VBool true ]});
  NUMBER_new c [VRef bag].

Definition NUMBER_static_ZEROFILL (c : NumberClass)
  : M (Descriptor NumberClass) :=
  bag ← alloc (OPlain {[ "zerofill" := VBool true ]});
  NUMBER_new c [VRef bag].

(** [NUMBER.toSql] (l. 426-447), which every class of the family but
    [DECIMAL] uses. *)
Definition NUMBER_toSql `{Host} (h : Heap) (this : Descriptor NumberClass)
  : string :=
  let o := options this in
  let result := NUMBER_key (class_of this) in
  let result :=
    if truthy (prop h o "length") then
      let result := result +:+ "(" +:+ String_of h (prop h o "length") in
      let result :=
        if String.eqb (typeof (prop h o "decimals")) "number" then
          result +:+ "," +:+ String_of h (prop h o "decimals")
        else result in
      result +:+ ")"
    else result in
  let result :=
    if truthy (prop h o "unsigned") then result +:+ " UNSIGNED" else result in
  let result :=
    if truthy (prop h o "zerofill") then result +:+ " ZEROFILL" else result in
  result.

(** [array.filter(num => num != null).join(',')] *)
Definition join_non_null `{Host} (h : Heap) (vs : list JSValue) : string :=
  String.concat "," (String_of h <$> filter (fun v => nullish v = false) vs).

(** [DECIMAL.toSql] (l. 640-648). *)
Definition DECIMAL_toSql `{Host} (h : Heap) (this : Descriptor NumberClass)
  : string :=
  let o := options this in
  if truthy (prop h o "precision") || truthy (prop h o "scale") then
    "DECIMAL(" +:+ join_non_null h [prop h o "precision"; prop h o "scale"]
      +:+ ")"
  else "DECIMAL".

(** [toSql()] as the class of the instance resolves it. *)
Definition Number_toSql `{Host} (h : Heap) (this : Descriptor NumberClass)
  : string :=
  match class_of this with
  | DECIMAL => DECIMAL_toSql h this
  | _ => NUMBER_toSql h this
  end.

(** ** FLOAT, REAL and DOUBLE: values

    [validate], [_value], [stringify] and [bindParam] of FLOAT (l. 562-595);
    REAL and DOUBLE override none of them, and none reads [this.options]. *)

Definition FLOAT_validate `{Host} (value : JSValue) : M unit :=
  text ← gets (fun h => String_of h value);
  if negb (Validator_isFloat text) then
    throw (ValidationError (Msg "%j is not a valid float" [value]))
  else mret tt.

Definition FLOAT__value `{Host} (h : Heap) (value : JSValue) : string :=
  let num :=
    match value with
    | VNumber n => n
    | _ => StringToNumber (String_of h value)
    end in
  if Number_isNaN num then "NaN"
  else if negb (Number_isFinite num) then
    let sign := if Number_negative num then "-" else "" in
    sign +:+ "Infinity"
  else Number_toString num.

Definition FLOAT_stringify `{Host} (value : JSValue) : M string :=
  FLOAT_validate value;;
  text ← gets (fun h => FLOAT__value h value);
  mret ("'" +:+ text +:+ "'").

(** [options.bindParam] is the caller's. *)
Definition FLOAT_bindParam `{Host} (value : JSValue)
  (options_bindParam : string -> M string) : M string :=
  text ← gets (fun h => FLOAT__value h value);
  options_bindParam text.

(** ** STRING and CHAR *)

(** Modelled from the spec: [joinSQLFragments] of [utils/join-sql-fragments],
    which is not among the sources.  The fragments that are not falsy are
    joined by single spaces: a column type with the modifiers appended to
    it. *)
Definition joinSQLFragments (fragments : list JSValue) : string :=
  String.concat " "
    (omap (fun v => match v with
                    | VString s => if truthy v then Some s else None
                    | _ => None
                    end) fragments).

(** [STRING]'s constructor (l. 234-250), inherited by [CHAR].
    [Object.freeze(this.options)] has no counterpart: nothing below writes
    to the options of a STRING. *)
Definition STRING_constructor (lengthOrOptions binary : JSValue) : M loc :=
  if isObject lengthOrOptions then
    length ← Get lengthOrOptions "length";
    binary ← Get lengthOrOptions "binary";
    alloc (OPlain (<["binary" := coalesce binary (VBool false)]>
                     {[ "length" := coalesce length (num 255) ]}))
  else
    alloc (OPlain (<["binary" := coalesce binary (VBool false)]>
                     {[ "length" := coalesce lengthOrOptions (num 255) ]})).

Definition STRING_new (c : StringClass) (args : list JSValue)
  : M (Descriptor StringClass) :=
  this_options ← STRING_constructor (arg args 0) (arg args 1);
  mret (Build c this_options).

(** [STRING.toSql] (l. 252-257) and [CHAR.toSql] (l. 295-300). *)
Definition STRING_toSql `{Host} (h : Heap) (this : Descriptor StringClass)
  : string :=
  let o := options this in
  joinSQLFragments
    [ VString ("VAR_CHAR(" +:+ String_of h (prop h o "length") +:+ ")");
      js_and (prop h o "binary") (VString "BINARY") ].

Definition CHAR_toSql `{Host} (h : Heap) (this : Descriptor StringClass)
  : string :=
  let o := options this in
  joinSQLFragments
    [ VString ("CHAR(" +:+ String_of h (prop h o "length") +:+ ")");
      js_and (prop h o "binary") (VString "BINARY") ].

Definition String_toSql `{Host} (h : Heap) (this : Descriptor StringClass)
  : string :=
  match class_of this with
  | STRING => STRING_toSql h this
  | CHAR => CHAR_toSql h this
  end.

(** [get BINARY()] of an instance and [static get BINARY()] of a class
    (l. 277-286). *)
Definition STRING_BINARY (this : Descriptor StringClass)
  : M (Descriptor StringClass) :=
  copy ← gets (fun h => spread h (options this));
  bag ← alloc (OPlain (<["binary" := VBool true]> copy));
  STRING_new (class_of this) [VRef bag].

Definition STRING_static_BINARY (c : StringClass)
  : M (Descriptor StringClass) :=
  bag ← alloc (OPlain {[ "binary" := VBool true ]});
  STRING_new c [VRef bag].

(** ** BOOLEAN *)

(** [BOOLEAN.parse] (l. 685-713).  No step of it can throw: the one value
    whose properties are read is a Buffer. *)
Definition BOOLEAN_parse (h : Heap) (value : JSValue) : JSValue :=
  if nullish value then VNull
  else
    let value :=
      match value with
      | VRef l =>
          if Buffer_isBuffer h value && strict_eq (prop h l "length") (num 1)
          then prop h l "0"
          else value
      | _ => value
      end in
    let type := typeof value in
    if String.eqb type "string" then
      if strict_eq value (VString "true") then VBool true
      else if strict_eq value (VString "false") then VBool false
      else VNull
    else if String.eqb type "number"
            && (strict_eq value (num 0) || strict_eq value (num 1)) then
      VBool (truthy value)
    else VNull.

(** [BOOLEAN.sanitize] (l. 681-683). *)
Definition BOOLEAN_sanitize (h : Heap) (value : JSValue) : JSValue :=
  BOOLEAN_parse h value.

(** ** DATE *)

(** [DATE]'s constructor (l. 749-755). *)
Definition DATE_constructor (lengthOrOptions : JSValue) : M loc :=
  length ←
    (if String.eqb (typeof lengthOrOptions) "object"
     then Get lengthOrOptions "length"
     else mret lengthOrOptions);
  alloc (OPlain {[ "length" := length ]}).

(** The time value of [new Date(n)]: the instants further than 8.64e15 ms
    from the epoch, and the numbers that are not finite, are no date. *)
Definition TimeClip (n : JSNumber) : JSNumber :=
  match n with
  | Finite z => if (Z.abs z <=? 8640000000000000)%Z then Finite z else NaN
  | _ => NaN
  end.

(** [DATE.sanitize] (l. 772-786); the values whose [typeof] is [string] or
    [number] are the strings and the numbers. *)
Definition DATE_sanitize `{Host} (value options : JSValue) : M JSValue :=
  raw ← gets (fun h => Get_optional h options "raw");
  if truthy raw then (mret value : M JSValue)
  else
    is_date ← gets (fun h => instanceof_Date h value);
    if (is_date : bool) then (mret value : M JSValue)
    else
      match value with
      | VString s => date ← alloc (ODate (Date_parse s)); mret (VRef date)
      | VNumber n => date ← alloc (ODate (TimeClip n)); mret (VRef date)
      | _ => throw (TypeError (Msg "%s cannot be converted to a date" [value]))
      end.

(** [date.getTime()] *)
Definition getTime (h : Heap) (v : JSValue) : JSValue :=
  match v with
  | VRef l => match h !! l with Some (ODate t) => VNumber t | _ => VUndefined end
  | _ => VUndefined
  end.

(** [DATE.areValuesEqual] (l. 788-809). *)
Definition DATE_areValuesEqual (h : Heap) (value originalValue : JSValue)
  : bool :=
  if truthy originalValue
     && truthy value
     && (strict_eq value originalValue
         || (instanceof_Date h value
             && instanceof_Date h originalValue
             && strict_eq (getTime h value) (getTime h originalValue)))
  then true
  else if negb (truthy originalValue) && negb (truthy value)
          && strict_eq originalValue value
  then true
  else false.

(** ** ENUM *)

(** The loop over [values] (l. 1235-1239). *)
Fixpoint ENUM_check_members (values : list JSValue) : M unit :=
  match values with
  | [] => mret tt
  | value :: rest =>
      if negb (String.eqb (typeof value) "string") then
        throw (TypeError (Msg
          "One of the possible values passed to DataTypes.ENUM (%s) is not a string. Only strings can be used as enum values."
          [value]))
      else ENUM_check_members rest
  end.

(** The first half of the constructor (l. 1215-1229): [values] out of the
    three ways of calling.  The rest parameter [args] is an array of its
    own, made by the call. *)
Definition ENUM_values_of (args : list JSValue) : M JSValue :=
  if isObject (arg args 0) then
    if Nat.ltb 1 (length args) then
      throw (TypeError (Msg
        "DataTypes.ENUM has been constructed incorrectly: Its first parameter is the option bag or the array of values, but more than one parameter has been provided."
        []))
    else
      is_array ← gets (fun h => Array_isArray h (arg args 0));
      if (is_array : bool) then mret (arg args 0)
      else Get (arg args 0) "values"
  else
    rest ← alloc (OArray args); mret (VRef rest).

(** The second half (l. 1231-1243): the checks, and [this.options]. *)
Definition ENUM_checked (values : JSValue) : M loc :=
  length ← Get values "length";
  if strict_eq length (num 0) then
    throw (TypeError (Msg
      "DataTypes.ENUM cannot be used without specifying its possible enum values."
      []))
  else
    members ← iterate values;
    ENUM_check_members members;;
    alloc (OPlain {[ "values" := values ]}).

Definition ENUM_constructor (args : list JSValue) : M loc :=
  values ← ENUM_values_of args;
  ENUM_checked values.

(** ** ARRAY, and the descriptors as one type *)

(** The instances of the classes above.  The options of an ARRAY hold the
    one field [type], an instance: it is kept as that instance. *)
Inductive AbstractDataType :=
| OfString (d : Descriptor StringClass)
| OfNumber (d : Descriptor NumberClass)
| OfBoolean
| OfDate (options : loc)
| OfEnum (options : loc)
| OfArray (type : AbstractDataType).

Inductive Class :=
| StringClassRef (c : StringClass)
| NumberClassRef (c : NumberClass)
| BOOLEAN
| DATE
| ENUM
| ARRAY.

(** [DataType<T>]: an instance, or a class to be constructed. *)
Inductive DataType :=
| Instance_ (t : AbstractDataType)
| Class_ (c : Class).

(** [DataType<T> | ArrayOptions<T>], the parameter of [ARRAY]. *)
Inductive ArrayArgument :=
| ByType (t : DataType)
| ByOptions (type : DataType).

(** [new rawType()]; [new ARRAY()] reads a property of [undefined]. *)
Definition new_default (c : Class) : M AbstractDataType :=
  match c with
  | StringClassRef c => OfString <$> STRING_new c []
  | NumberClassRef c => OfNumber <$> NUMBER_new c []
  | BOOLEAN => mret OfBoolean
  | DATE => OfDate <$> DATE_constructor VUndefined
  | ENUM => OfEnum <$> ENUM_constructor []
  | ARRAY =>
      throw (TypeError (Msg "Cannot read properties of %s"
                          [VUndefined; VString "prototype"]))
  end.

(** [ARRAY]'s constructor (l. 1278-1286) normalises its argument to the
    instance kept in [this.options.type]. *)
Definition ARRAY_constructor (typeOrOptions : ArrayArgument)
  : M AbstractDataType :=
  let rawType :=
    match typeOrOptions with
    | ByType t => t
    | ByOptions type => type
    end in
  match rawType with
  | Class_ c => new_default c
  | Instance_ t => mret t
  end.

Definition ARRAY_new (typeOrOptions : ArrayArgument) : M AbstractDataType :=
  OfArray <$> ARRAY_constructor typeOrOptions.

(** [toSql] of any descriptor: [ARRAY.toSql] (l. 1288-1290) over those of
    the other classes.  ENUM keeps the default of the abstract class
    (l. 171-178), its key. *)
Fixpoint toSql `{Host} (h : Heap) (this : AbstractDataType) : string :=
  match this with
  | OfString d => String_toSql h d
  | OfNumber d => Number_toSql h d
  | OfBoolean => "TINYINT(1)"
  | OfDate _ => "DATETIME"
  | OfEnum _ => "ENUM"
  | OfArray type => toSql h type +:+ "[]"
  end.

(** [ARRAY.validate] (l. 1292-1303). *)
Definition ARRAY_validate (value : JSValue) : M bool :=
  is_array ← gets (fun h => Array_isArray h value);
  if negb (is_array : bool) then
    throw (ValidationError (Msg "%j is not a valid array" [value]))
  else mret true.

(** [options.values] of an ENUM, or any array, as the list of its items. *)
Definition array_items (h : Heap) (v : JSValue) : option (list JSValue) :=
  match v with
  | VRef l => match h !! l with Some (OArray items) => Some items | _ => None end
  | _ => None
  end.

Definition ENUM_values (h : Heap) (this_options : loc)
  : option (list JSValue) :=
  array_items h (prop h this_options "values").

(** ** The validator package

    [Validator.isFloat] is the [isFloat] of the validator package, which
    [utils/validator-extras] hands on as it is.  It accepts the texts other
    than the empty one, a lone point and a lone sign that are made of an
    optional sign, digits, an optional point with the digits after it, and
    an optional exponent ([e] or [E], an optional sign, one digit or more),
    in this order and with nothing else.  Each part starts with a character
    no earlier part can read, so reading greedily from the left decides the
    match. *)
Definition is_digit (c : ascii) : bool :=
  (48 <=? nat_of_ascii c)%nat && (nat_of_ascii c <=? 57)%nat.

Definition is_sign (c : ascii) : bool :=
  Ascii.eqb c "+" || Ascii.eqb c "-".

Fixpoint skip_digits (s : string) : string :=
  match s with
  | String c rest => if is_digit c then skip_digits rest else s
  | EmptyString => s
  end.

Definition skip_sign (s : string) : string :=
  match s with
  | String c rest => if is_sign c then rest else s
  | EmptyString => s
  end.

Definition skip_fraction (s : string) : string :=
  match s with
  | String c rest => if Ascii.eqb c "." then skip_digits rest else s
  | EmptyString => s
  end.

(** What is left is an exponent, or nothing. *)
Definition ends_with_exponent (s : string) : bool :=
  match s with
  | EmptyString => true
  | String c rest =>
      (Ascii.eqb c "e" || Ascii.eqb c "E")
      && match skip_sign rest with
         | String d more => is_digit d && String.eqb (skip_digits more) ""
         | EmptyString => false
         end
  end.

Definition validator_isFloat (str : string) : bool :=
  if String.eqb str "" || String.eqb str "." || String.eqb str "-"
     || String.eqb str "+"
  then false
  else ends_with_exponent (skip_fraction (skip_digits (skip_sign str))).

(** A host whose validator is the package's. *)
Definition host_with_validator (string_to_number date_parse : string -> JSNumber)
  (object_to_string : Heap -> loc -> string) : Host :=
  {| Validator_isFloat := validator_isFloat;
     StringToNumber := string_to_number;
     Date_parse := date_parse;
     Object_toString := object_to_string |}.

(** A host with nothing to parse: no text is a number or a date, and every
    object prints as a plain object does. *)
Definition plain_host : Host :=
  host_with_validator (fun _ => NaN) (fun _ => NaN) (fun _ _ => "[object Object]").

(** ** What the statements below speak of *)

(** A bag in which every option reads as [undefined]. *)
Definition all_undefined (props : gmap string JSValue) : Prop :=
  forall k, default VUndefined (props !! k) = VUndefined.

Definition is_string (v : JSValue) : Prop := exists s, v = VString s.

(** The three ways of calling [ENUM], as the caller writes them: an array
    literal, an option bag holding an array literal, and the values
    themselves. *)
Definition ENUM_of_array (values : list JSValue) : M loc :=
  arr ← alloc (OArray values); ENUM_constructor [VRef arr].

Definition ENUM_of_options (values : list JSValue) : M loc :=
  arr ← alloc (OArray values);
  bag ← alloc (OPlain {[ "values" := VRef arr ]});
  ENUM_constructor [VRef bag].

Definition ENUM_of_arguments (values : list JSValue) : M loc :=
  ENUM_constructor values.

(** The values the specification calls empty or null-like: [null],
    [undefined], the empty text, [false] and zero. *)
Definition empty_values : list JSValue :=
  [VNull; VUndefined; VString ""; VBool false; num 0].

(** The representations of a boolean that the specification names: a Buffer
    wrapping a single bit, the numbers 0 and 1, the texts [true] and
    [false]; and the boolean each stands for. *)
Definition BOOLEAN_recognised (h : Heap) (v : JSValue) : option bool :=
  match v with
  | VString s =>
      if String.eqb s "true" then Some true
      else if String.eqb s "false" then Some false
      else None
  | VNumber (Finite z) =>
      if Z.eqb z 1 then Some true else if Z.eqb z 0 then Some false else None
  | VRef l =>
      match h !! l with
      | Some (OBuffer [b]) =>
          if Z.eqb b 1 then Some true else if Z.eqb b 0 then Some false else None
      | _ => None
      end
  | _ => None
  end.

(** [DECIMAL] as the argument of [ARRAY]: the class, not an instance. *)
Definition DECIMAL_class : DataType := Class_ (NumberClassRef DECIMAL).

(** * The rest of the module

    The methods and classes of [data-types.ts] that the descriptors above
    leave out, where they can be followed from the file alone. *)

(** ** More of the language *)

(** SameValueZero, the equality of [Array.prototype.includes]: strict
    equality, but [NaN] is itself. *)
Definition same_value_zero (a b : JSValue) : bool :=
  match a, b with
  | VNumber NaN, VNumber NaN => true
  | _, _ => strict_eq a b
  end.

(** [text.toLowerCase()] on the letters A to Z. *)
Definition lower_case (c : ascii) : ascii :=
  let n := nat_of_ascii c in
  if (65 <=? n)%nat && (n <=? 90)%nat then ascii_of_nat (n + 32) else c.

Fixpoint toLowerCase (s : string) : string :=
  match s with
  | EmptyString => EmptyString
  | String c rest => String (lower_case c) (toLowerCase rest)
  end.

(** [hay.includes(needle)] *)
Fixpoint String_includes (needle hay : string) : bool :=
  if String.prefix needle hay then true
  else match hay with
       | EmptyString => false
       | String _ rest => String_includes needle rest
       end.

(** ** STRING: validate and extend *)

(** [STRING.validate] (l. 259-275), inherited by [CHAR]. *)
Definition STRING_validate (this : Descriptor StringClass) (value : JSValue)
  : M unit :=
  if String.eqb (typeof value) "string" then mret tt
  else
    accepted ← gets (fun h =>
      (truthy (prop h (options this) "binary") && Buffer_isBuffer h value)
      || String.eqb (typeof value) "number");
    if (accepted : bool) then mret tt
    else throw (ValidationError (Msg "%j is not a valid string" [value])).

(** [static extend(oldType)] (l. 195-200): [new this(oldType.options)], for
    a class of the string and of the numeric family. *)
Definition STRING_extend (c : StringClass) (oldType_options : loc)
  : M (Descriptor StringClass) :=
  STRING_new c [VRef oldType_options].

Definition NUMBER_extend (c : NumberClass) (oldType_options : loc)
  : M (Descriptor NumberClass) :=
  NUMBER_new c [VRef oldType_options].



(** ** TEXT *)

Definition validTextLengths : list string := ["tiny"; "medium"; "long"].

(** The double quote, the character 34, as a text. *)
Definition double_quote : string := String (ascii_of_nat 34) EmptyString.

(** [TEXT]'s constructor (l. 321-333).  Only a text has a [toLowerCase] to
    call. *)
Definition TEXT_constructor (lengthOrOptions : JSValue) : M loc :=
  raw ←
    (if String.eqb (typeof lengthOrOptions) "object"
     then Get lengthOrOptions "length"
     else mret lengthOrOptions);
  length ←
    match raw with
    | VUndefined | VNull => mret VUndefined
    | VString s => mret (VString (toLowerCase s))
    | _ => throw (TypeError (Msg "%s.toLowerCase is not a function" [raw]))
    end;
  if negb (nullish length)
     && negb (existsb (fun valid => strict_eq length (VString valid))
                validTextLengths)
  then
    throw (TypeError (Msg
      ("If specified, the " +:+ double_quote +:+ "length" +:+ double_quote
       +:+ " option must be one of: " +:+ String.concat ", " validTextLengths)
      []))
  else alloc (OPlain {[ "length" := length ]}).

(** [TEXT.toSql] (l. 335-346). *)
Definition TEXT_toSql (h : Heap) (this_options : loc) : string :=
  let length := prop h this_options "length" in
  if strict_eq length (VString "tiny") then "TINY_TEXT"
  else if strict_eq length (VString "medium") then "MEDIUM_TEXT"
  else if strict_eq length (VString "long") then "LONG_TEXT"
  else "TEXT".

(** ** BLOB *)

Definition hex_digit (n : nat) : ascii :=
  nth n (list_ascii_of_string "0123456789abcdef") "0"%char.

(** A Buffer holds bytes, the integers from 0 to 255. *)
Definition byte_to_hex (b : Z) : string :=
  let n := Z.to_nat (b mod 256) in
  String (hex_digit (n / 16)) (String (hex_digit (n mod 16)) EmptyString).

(** [buf.toString('hex')] *)
Fixpoint Buffer_toString_hex (bytes : list Z) : string :=
  match bytes with
  | [] => EmptyString
  | b :: rest => byte_to_hex b +:+ Buffer_toString_hex rest
  end.

(** [Buffer.from(text, 'binary')]: one byte for each character. *)
Definition Buffer_from_binary (s : string) : list Z :=
  (fun c => Z.of_nat (nat_of_ascii c)) <$> list_ascii_of_string s.

(** [string | Buffer], what [BLOB.stringify] takes. *)
Inductive AcceptedBlob :=
| BlobText (s : string)
| BlobBuffer (bytes : list Z).

(** [BLOB._hexify] and [BLOB.stringify] (l. 979-990). *)
Definition BLOB__hexify (hex : string) : string := "X'" +:+ hex +:+ "'".

Definition BLOB_stringify (value : AcceptedBlob) : string :=
  let buf :=
    match value with
    | BlobText s => Buffer_from_binary s
    | BlobBuffer bytes => bytes
    end in
  let hex := Buffer_toString_hex buf in
  BLOB__hexify hex.

(** The value of a hexadecimal digit, which [hex_digit] is read back
    with. *)
Definition hex_value (c : ascii) : nat :=
  let n := nat_of_ascii c in
  if (48 <=? n)%nat && (n <=? 57)%nat then n - 48 else n - 87.

Definition is_hex_digit (c : ascii) : bool :=
  is_digit c || ((97 <=? nat_of_ascii c)%nat && (nat_of_ascii c <=? 102)%nat).

(** ** DATE and DATEONLY *)

(** The time of [new Date(value)] for the values that [DATE.sanitize] makes
    a Date of. *)
Definition time_value `{Host} (value : JSValue) : option JSNumber :=
  match value with
  | VString s => Some (Date_parse s)
  | VNumber n => Some (TimeClip n)
  | _ => None
  end.

(** [moment(value).format(pattern)], which the module imports. *)
Class Moment := {
  moment_format : Heap -> JSValue -> string -> string;
}.

(** [DATEONLY.sanitize] (l. 851-861). *)
Definition DATEONLY_sanitize `{Moment} (value options : JSValue) : M JSValue :=
  is_date ← gets (fun h => instanceof_Date h value);
  if negb (String.eqb (typeof value) "string")
     && negb (String.eqb (typeof value) "number")
     && negb (is_date : bool)
  then
    throw (TypeError
             (Msg "%s cannot be normalized into a DateOnly string." [value]))
  else
    raw ← gets (fun h => Get_optional h options "raw");
    if negb (truthy raw) && truthy value then
      text ← gets (fun h => moment_format h value "YYYY-MM-DD");
      mret (VString text)
    else mret value.

(** [DATEONLY.areValuesEqual] (l. 864-875). *)
Definition DATEONLY_areValuesEqual (value originalValue : JSValue) : bool :=
  if truthy originalValue && truthy value && strict_eq originalValue value
  then true
  else if negb (truthy originalValue) && negb (truthy value)
          && strict_eq originalValue value
  then true
  else false.

(** ** ENUM: validate *)

(** What [options.values] can be once the constructor has returned: an
    array or a text. *)
Inductive EnumValues :=
| ValuesArray (items : list JSValue)
| ValuesText (s : string).

Definition ENUM_values_kept (h : Heap) (this_options : loc)
  : option EnumValues :=
  match prop h this_options "values" with
  | VString s => Some (ValuesText s)
  | VRef l =>
      match h !! l with
      | Some (OArray items) => Some (ValuesArray items)
      | _ => None
      end
  | _ => None
  end.

(** [values.includes(value)], of an array and of a text. *)
Definition ENUM_includes `{Host} (h : Heap) (values : EnumValues)
  (value : JSValue) : bool :=
  match values with
  | ValuesArray items => existsb (same_value_zero value) items
  | ValuesText s => String_includes (String_of h value) s
  end.

(** [ENUM.validate] (l. 1246-1253).  Where [options.values] is neither an
    array nor a text, which no constructor leaves behind, the call of
    [includes] is taken to fail. *)
Definition ENUM_validate `{Host} (this_options : loc) (value : JSValue)
  : M unit := fun h =>
  match ENUM_values_kept h this_options with
  | Some values =>
      if negb (ENUM_includes h values value) then
        (Throw (ValidationError
                  (Msg "%j is not a valid choice in %j"
                     [value; prop h this_options "values"])), h)
      else (Normal tt, h)
  | None =>
      (Throw (TypeError (Msg "%s.includes is not a function"
                           [prop h this_options "values"])), h)
  end.

(** ** Classes and their ancestors: ARRAY.is and RANGE *)

#[global] Instance StringClass_eq_dec : EqDecision StringClass.
Proof. solve_decision. Defined.

#[global] Instance NumberClass_eq_dec : EqDecision NumberClass.
Proof. solve_decision. Defined.

#[global] Instance Class_eq_dec : EqDecision Class.
Proof. solve_decision. Defined.

(** The [extends] clause of a class; [None] is [AbstractDataType]. *)
Definition superclass (c : Class) : option Class :=
  match c with
  | StringClassRef CHAR => Some (StringClassRef STRING)
  | NumberClassRef (INTEGER | FLOAT | DECIMAL) => Some (NumberClassRef NUMBER)
  | NumberClassRef (TINYINT | SMALLINT | MEDIUMINT | BIGINT) =>
      Some (NumberClassRef INTEGER)
  | NumberClassRef (REAL | DOUBLE) => Some (NumberClassRef FLOAT)
  | _ => None
  end.

(** [c] is [a] or a class derived from it. *)
Inductive extends : Class -> Class -> Prop :=
| extends_itself (c : Class) : extends c c
| extends_parent (c parent a : Class) :
    superclass c = Some parent -> extends parent a -> extends c a.

(** A class and the classes it extends, nearest first; no class of the
    module is further than two classes from the abstract one. *)
Fixpoint ancestors_upto (fuel : nat) (c : Class) : list Class :=
  c :: match fuel, superclass c with
       | S fuel', Some parent => ancestors_upto fuel' parent
       | _, _ => []
       end.

Definition ancestors (c : Class) : list Class := ancestors_upto 2 c.

Definition class_of_instance (t : AbstractDataType) : Class :=
  match t with
  | OfString d => StringClassRef (class_of d)
  | OfNumber d => NumberClassRef (class_of d)
  | OfBoolean => BOOLEAN
  | OfDate _ => DATE
  | OfEnum _ => ENUM
  | OfArray _ => ARRAY
  end.

(** [t instanceof c] *)
Definition instanceof (t : AbstractDataType) (c : Class) : bool :=
  bool_decide (c ∈ ancestors (class_of_instance t)).

(** [static is(obj, type)] of ARRAY (l. 1305-1310), for an [obj] that is a
    descriptor. *)
Definition ARRAY_is (obj : AbstractDataType) (type : Class) : bool :=
  match obj with
  | OfArray inner => instanceof inner type
  | _ => false
  end.





(** [RANGE.validate] (l. 1028-1042). *)
Definition RANGE_validate (value : JSValue) : M unit :=
  is_array ← gets (fun h => Array_isArray h value);
  if negb (is_array : bool) then
    throw (ValidationError (Msg "%j is not a valid range" [value]))
  else
    length ← Get value "length";
    if negb (strict_eq length (num 2)) then
      throw (ValidationError (Msg "A range must be an array with two elements" []))
    else mret tt.

(** ** The dialect names of a class

    [kSetDialectNames] (l. 73-88) writes to the [types] a class owns, and
    gives it an empty one first when what it has is inherited.  The
    registry keeps, under the name of a class, the [types] that class owns;
    [X.types] is read along the classes that [X] extends. *)
Definition extends_clauses : list (string * string) :=
  [ ("STRING", "AbstractDataType"); ("CHAR", "STRING");
    ("TEXT", "AbstractDataType"); ("CITEXT", "AbstractDataType");
    ("NUMBER", "AbstractDataType"); ("INTEGER", "NUMBER");
    ("TINYINT", "INTEGER"); ("SMALLINT", "INTEGER");
    ("MEDIUMINT", "INTEGER"); ("BIGINT", "INTEGER");
    ("FLOAT", "NUMBER"); ("REAL", "FLOAT"); ("DOUBLE", "FLOAT");
    ("DECIMAL", "NUMBER"); ("BOOLEAN", "AbstractDataType");
    ("TIME", "AbstractDataType"); ("DATE", "AbstractDataType");
    ("DATEONLY", "AbstractDataType"); ("HSTORE", "AbstractDataType");
    ("JSON", "AbstractDataType"); ("JSONB", "JSON");
    ("NOW", "AbstractDataType"); ("BLOB", "AbstractDataType");
    ("RANGE", "AbstractDataType"); ("UUID", "AbstractDataType");
    ("UUIDV1", "AbstractDataType"); ("UUIDV4", "AbstractDataType");
    ("VIRTUAL", "AbstractDataType"); ("ENUM", "AbstractDataType");
    ("ARRAY", "AbstractDataType"); ("GEOMETRY", "AbstractDataType");
    ("GEOGRAPHY", "GEOMETRY"); ("CIDR", "AbstractDataType");
    ("INET", "AbstractDataType"); ("MACADDR", "AbstractDataType");
    ("TSVECTOR", "AbstractDataType") ].

Definition extended_by (name : string) : option string :=
  snd <$> find (fun clause => String.eqb (fst clause) name) extends_clauses.

(** The classes a static property of [name] is looked up in, in order. *)
Fixpoint static_chain_upto (fuel : nat) (name : string) : list string :=
  name :: match fuel, extended_by name with
          | S fuel', Some parent => static_chain_upto fuel' parent
          | _, _ => []
          end.

Definition static_chain (name : string) : list string :=
  static_chain_upto 3 name.

Definition kSetDialectNames {Meta : Type} (this dialect : string) (types : Meta)
  (registry : gmap string (gmap string Meta)) : gmap string (gmap string Meta) :=
  let own :=
    match registry !! this with
    | Some own => own
    | None => ∅
    end in
  <[this := <[dialect := types]> own]> registry.

(** [X.types]: the first [types] owned along the chain, if there is one. *)
Definition types_of {Meta : Type} (registry : gmap string (gmap string Meta))
  (name : string) : option (gmap string Meta) :=
  head (omap (fun class => registry !! class) (static_chain name)).

(** ** Warnings

    [warn] (l. 185-192) over the set [printedWarnings] of the module and
    the lines handed to the logger. *)
Record Warnings := {
  printedWarnings : gset string;
  logged : list string;
}.

Definition no_warnings : Warnings :=
  {| printedWarnings := ∅; logged := [] |}.

Definition warn (link text : string) (w : Warnings) : Warnings :=
  if decide (text ∈ printedWarnings w) then w
  else
    {| printedWarnings := {[ text ]} ∪ printedWarnings w;
       logged := logged w
                 ++ [text +:+ " " +:+ String "010"%char ">> Check: " +:+ link] |}.

(** A run of calls of [warn], each a link and a text, one after the
    other. *)
Definition warn_each (calls : list (string * string)) (w : Warnings) : Warnings :=
  foldl (fun w call => warn call.1 call.2 w) w calls.

(** No class of the module is among the classes that its parent is
    derived from: the [extends] clauses have no cycle. *)
Definition extends_acyclic : bool :=
  forallb (fun clause : string * string =>
             forallb (fun ancestor =>
                        negb (existsb (String.eqb clause.1) (static_chain ancestor)))
               (static_chain_upto 2 clause.2))
    extends_clauses.
(** * Properties *)

(** ** The heap *)

Lemma lookup_fresh (h ext : Heap) (o : HeapObj) :
  (h ++ o :: ext) !! length h = Some o.
Proof. by apply list_lookup_middle. Qed.

Lemma lookup_at (h ext : Heap) (n k : nat) :
  n = length h + k -> (h ++ ext) !! n = ext !! k.
Proof. intros ->. rewrite lookup_app_r by lia. f_equal. lia. Qed.

Lemma prop_plain (h : Heap) (l : loc) (props : gmap string JSValue) (k : string) :
  h !! l = Some (OPlain props) -> prop h l k = default VUndefined (props !! k).
Proof. intros Hl. unfold prop. by rewrite Hl. Qed.

Lemma spread_plain (h : Heap) (l : loc) (props : gmap string JSValue) :
  h !! l = Some (OPlain props) -> spread h l = props.
Proof. intros Hl. unfold spread. by rewrite Hl. Qed.

Lemma prop_buffer_length (h : Heap) (l : loc) (bytes : list Z) :
  h !! l = Some (OBuffer bytes) ->
  prop h l "length" = num (Z.of_nat (length bytes)).
Proof. intros Hl. unfold prop. by rewrite Hl. Qed.

Lemma prop_buffer_first (h : Heap) (l : loc) (b : Z) (rest : list Z) :
  h !! l = Some (OBuffer (b :: rest)) -> prop h l "0" = num b.
Proof.
  intros Hl. unfold prop. rewrite Hl. cbn [String.eqb Ascii.eqb Bool.eqb].
  unfold index_props. cbn [fmap list_fmap imap list_to_map].
  rewrite list_to_map_cons. change (pretty 0) with "0".
  by rewrite lookup_insert_eq.
Qed.

(** Unfolds the monad, so that a computation becomes the pair it returns. *)
Ltac run :=
  cbv beta iota delta [mbind M_bind mret M_ret fmap M_fmap gets alloc throw].

(** Reads a heap of the form [h ++ ext] at the addresses that lie in [ext]. *)
Ltac heap_lookup :=
  match goal with
  | |- context [(?h ++ ?ext) !! ?n] =>
      first [ rewrite (lookup_at h ext n 0) by lia
            | rewrite (lookup_at h ext n 1) by lia
            | rewrite (lookup_at h ext n 2) by lia
            | rewrite (lookup_at h ext n 3) by lia
            | rewrite (lookup_at h ext n 4) by lia
            | rewrite (lookup_at h ext n 5) by lia ]
  end.

Ltac heap_simpl :=
  repeat (rewrite <- ?app_assoc, ?length_app; cbn [length app]);
  repeat heap_lookup;
  cbn [lookup list_lookup].

(** Evaluates the operators on the values at hand. *)
Ltac js_simpl :=
  cbn [arg default from_option id lookup list_lookup isObject typeof nullish
       coalesce String.eqb Ascii.eqb Bool.eqb Nat.ltb Nat.leb length
       spread_value class_of options].

(** ** Strict equality *)

Lemma strict_eq_refl (v : JSValue) : v <> VNumber NaN -> strict_eq v v = true.
Proof.
  destruct v as [| |b|[]|s|l]; try done; intros _; cbn.
  - by destruct b.
  - apply Z.eqb_refl.
  - apply String.eqb_refl.
  - apply Nat.eqb_refl.
Qed.

Lemma strict_eq_length_0 (n : nat) :
  strict_eq (num (Z.of_nat n)) (num 0) = bool_decide (n = 0).
Proof.
  cbn. case_bool_decide as Hn.
  - by subst.
  - apply Z.eqb_neq. lia.
Qed.

(** ** FLOAT, REAL and DOUBLE: the values that are not finite *)

Lemma FLOAT__value_not_finite `{Host} (h : Heap) :
  FLOAT__value h (VNumber NaN) = "NaN"
  /\ FLOAT__value h (VNumber PosInfinity) = "Infinity"
  /\ FLOAT__value h (VNumber NegInfinity) = "-Infinity".
Proof. by split_and!. Qed.

(** [stringify] quotes the text of a value that [validate] lets through,
    and throws what [validate] throws otherwise. *)
Lemma FLOAT_stringify_validated `{Host} (h : Heap) (value : JSValue) :
  FLOAT_stringify value h =
    if Validator_isFloat (String_of h value)
    then (Normal ("'" +:+ FLOAT__value h value +:+ "'"), h)
    else (Throw (ValidationError (Msg "%j is not a valid float" [value])), h).
Proof.
  unfold FLOAT_stringify, FLOAT_validate. run.
  by destruct (Validator_isFloat (String_of h value)).
Qed.

(** So the quoted tokens come out exactly when the host's [isFloat] takes
    the tokens for floats. *)
Lemma FLOAT_stringify_not_finite_accepted `{Host} (h : Heap) :
  Validator_isFloat "NaN" = true ->
  Validator_isFloat "Infinity" = true ->
  Validator_isFloat "-Infinity" = true ->
  FLOAT_stringify (VNumber NaN) h = (Normal "'NaN'", h)
  /\ FLOAT_stringify (VNumber PosInfinity) h = (Normal "'Infinity'", h)
  /\ FLOAT_stringify (VNumber NegInfinity) h = (Normal "'-Infinity'", h).
Proof.
  intros Hnan Hpos Hneg. rewrite !FLOAT_stringify_validated.
  cbn [String_of Number_toString]. by rewrite Hnan, Hpos, Hneg.
Qed.

(** [bindParam], next to it, does not validate: it binds the bare token. *)
Lemma FLOAT_bindParam_not_finite `{Host} (h : Heap)
  (options_bindParam : string -> M string) :
  FLOAT_bindParam (VNumber NaN) options_bindParam h = options_bindParam "NaN" h
  /\ FLOAT_bindParam (VNumber PosInfinity) options_bindParam h
     = options_bindParam "Infinity" h
  /\ FLOAT_bindParam (VNumber NegInfinity) options_bindParam h
     = options_bindParam "-Infinity" h.
Proof.
  unfold FLOAT_bindParam. run.
  split_and!; by destruct (options_bindParam _ h) as [[]].
Qed.

(** The validator package takes decimal texts for floats and none of the
    three tokens. *)
Lemma validator_isFloat_examples :
  validator_isFloat "3.14" = true
  /\ validator_isFloat "-0.5e-7" = true
  /\ validator_isFloat "NaN" = false
  /\ validator_isFloat "Infinity" = false
  /\ validator_isFloat "-Infinity" = false.
Proof. by split_and!. Qed.

Lemma FLOAT_stringify_finite (h : Heap) :
  FLOAT_stringify (H := plain_host) (num 42) h = (Normal "'42'", h).
Proof. reflexivity. Qed.

(** C1. With the validator package deciding what a float is, [stringify] of
    FLOAT (REAL and DOUBLE inherit it) does not return ['NaN'], ['Infinity']
    or ['-Infinity'] for the three values that are not finite: [validate]
    runs first, the package's [isFloat] rejects the texts [NaN], [Infinity]
    and [-Infinity], and a ValidationError is thrown. *)
Theorem FLOAT_stringify_not_finite_throws
  (string_to_number date_parse : string -> JSNumber)
  (object_to_string : Heap -> loc -> string) (h : Heap) :
  let host := host_with_validator string_to_number date_parse object_to_string in
  FLOAT_stringify (VNumber NaN) h
    = (Throw (ValidationError (Msg "%j is not a valid float" [VNumber NaN])), h)
  /\ FLOAT_stringify (VNumber PosInfinity) h
    = (Throw (ValidationError
               (Msg "%j is not a valid float" [VNumber PosInfinity])), h)
  /\ FLOAT_stringify (VNumber NegInfinity) h
    = (Throw (ValidationError
               (Msg "%j is not a valid float" [VNumber NegInfinity])), h).
Proof. intros host. rewrite !FLOAT_stringify_validated. by split_and!. Qed.

(** ** The numeric family: construction and modifiers *)

Lemma NUMBER_constructor_bag (h : Heap) (bag : loc) (props : gmap string JSValue) :
  h !! bag = Some (OPlain props) ->
  NUMBER_constructor (VRef bag) h = (Normal (length h), h ++ [OPlain props]).
Proof.
  intros Hbag. unfold NUMBER_constructor. js_simpl. run.
  by rewrite (spread_plain _ _ _ Hbag).
Qed.

Lemma FLOAT_constructor_default (h : Heap) :
  let bag := OPlain (<["decimals" := VUndefined]> {[ "length" := VUndefined ]}) in
  FLOAT_constructor VUndefined VUndefined h = (Normal (length h + 1), h ++ [bag; bag]).
Proof.
  intros bag. unfold FLOAT_constructor. js_simpl. run.
  rewrite (NUMBER_constructor_bag _ _ _ (lookup_fresh h [] _)).
  by heap_simpl.
Qed.

Lemma DECIMAL_constructor_default (h : Heap) :
  DECIMAL_constructor VUndefined VUndefined h =
    (Normal (length h),
     h ++ [OPlain (<["scale" := VUndefined]>
                     (<["precision" := VUndefined]> {[ "length" := VUndefined ]}))]).
Proof.
  unfold DECIMAL_constructor, NUMBER_constructor, set_prop. js_simpl. run.
  rewrite lookup_fresh, insert_app_r_alt, Nat.sub_diag by lia.
  cbn [insert list_insert].
  rewrite lookup_fresh, insert_app_r_alt, Nat.sub_diag by lia.
  reflexivity.
Qed.

(** Constructed from an option bag, every class of the family copies the
    bag into an object of its own. *)
Lemma NUMBER_new_bag (c : NumberClass) (bag : loc) (h : Heap)
  (props : gmap string JSValue) :
  h !! bag = Some (OPlain props) ->
  NUMBER_new c [VRef bag] h = (Normal (Build c (length h)), h ++ [OPlain props]).
Proof.
  intros Hbag.
  destruct c; unfold NUMBER_new, FLOAT_constructor, DECIMAL_constructor;
  js_simpl; run; by rewrite (NUMBER_constructor_bag _ _ _ Hbag).
Qed.

Lemma all_undefined_singleton (k : string) : all_undefined {[ k := VUndefined ]}.
Proof.
  intros k'. destruct (decide (k = k')) as [->|].
  - by rewrite lookup_singleton_eq.
  - by rewrite lookup_singleton_ne.
Qed.

Lemma all_undefined_insert (k : string) (props : gmap string JSValue) :
  all_undefined props -> all_undefined (<[k := VUndefined]> props).
Proof.
  intros Hprops k'. destruct (decide (k = k')) as [->|].
  - by rewrite lookup_insert_eq.
  - rewrite lookup_insert_ne by done. apply Hprops.
Qed.

(** Constructed without arguments, every class of the family has options
    that all read as [undefined]. *)
Lemma NUMBER_new_default (c : NumberClass) (h : Heap) :
  exists this h1 props,
    NUMBER_new c [] h = (Normal this, h1)
    /\ class_of this = c
    /\ h1 !! options this = Some (OPlain props)
    /\ all_undefined props
    /\ h `prefix_of` h1.
Proof.
  destruct c.
  1-6: by (eexists _, _, _; split; [reflexivity|]; cbn [class_of options];
    split_and!; [done | apply lookup_fresh | apply all_undefined_singleton | eexists]).
  1-3: eexists _, _, _; split;
    [ unfold NUMBER_new; js_simpl; run; rewrite FLOAT_constructor_default; reflexivity |];
    cbn [class_of options]; split_and!;
    [ done | heap_simpl; reflexivity
    | apply all_undefined_insert, all_undefined_singleton
    | eexists; reflexivity ].
  eexists _, _, _; split;
    [ unfold NUMBER_new; js_simpl; run; rewrite DECIMAL_constructor_default; reflexivity |];
    cbn [class_of options]; split_and!;
    [ done | apply lookup_fresh
    | apply all_undefined_insert, all_undefined_insert, all_undefined_singleton
    | eexists; reflexivity ].
Qed.

(** The modifiers of an instance allocate two objects, the bag they pass on
    and the options of the new instance, and write to no object that was
    there. *)
Lemma NUMBER_UNSIGNED_bag (this : Descriptor NumberClass) (h : Heap) :
  let bag := OPlain (<["unsigned" := VBool true]> (spread h (options this))) in
  NUMBER_UNSIGNED this h =
    (Normal (Build (class_of this) (length h + 1)), h ++ [bag; bag]).
Proof.
  intros bag. unfold NUMBER_UNSIGNED, NUMBER__construct. run.
  rewrite (NUMBER_new_bag _ _ _ _ (lookup_fresh h [] _)).
  by heap_simpl.
Qed.

Lemma NUMBER_ZEROFILL_bag (this : Descriptor NumberClass) (h : Heap) :
  let bag := OPlain (<["zerofill" := VBool true]> (spread h (options this))) in
  NUMBER_ZEROFILL this h =
    (Normal (Build (class_of this) (length h + 1)), h ++ [bag; bag]).
Proof.
  intros bag. unfold NUMBER_ZEROFILL, NUMBER__construct. run.
  rewrite (NUMBER_new_bag _ _ _ _ (lookup_fresh h [] _)).
  by heap_simpl.
Qed.

Lemma NUMBER_static_UNSIGNED_bag (c : NumberClass) (h : Heap) :
  let bag := OPlain {[ "unsigned" := VBool true ]} in
  NUMBER_static_UNSIGNED c h = (Normal (Build c (length h + 1)), h ++ [bag; bag]).
Proof.
  intros bag. unfold NUMBER_static_UNSIGNED. run.
  rewrite (NUMBER_new_bag _ _ _ _ (lookup_fresh h [] _)).
  by heap_simpl.
Qed.

Lemma NUMBER_static_ZEROFILL_bag (c : NumberClass) (h : Heap) :
  let bag := OPlain {[ "zerofill" := VBool true ]} in
  NUMBER_static_ZEROFILL c h = (Normal (Build c (length h + 1)), h ++ [bag; bag]).
Proof.
  intros bag. unfold NUMBER_static_ZEROFILL. run.
  rewrite (NUMBER_new_bag _ _ _ _ (lookup_fresh h [] _)).
  by heap_simpl.
Qed.

(** Whatever the instance, a modifier leaves every object of the heap as it
    was. *)
Lemma NUMBER_modifiers_frame (this : Descriptor NumberClass) (h : Heap)
  (l : loc) (o : HeapObj) :
  h !! l = Some o ->
  (NUMBER_UNSIGNED this h).2 !! l = Some o
  /\ (NUMBER_ZEROFILL this h).2 !! l = Some o.
Proof.
  intros Hl. rewrite NUMBER_UNSIGNED_bag, NUMBER_ZEROFILL_bag. cbn [snd].
  split; by apply lookup_app_l_Some.
Qed.

(** C2. From a fresh INTEGER, UNSIGNED and then ZEROFILL give a descriptor
    whose [toSql()] is [INTEGER UNSIGNED ZEROFILL]; the [toSql()] of the
    original is [INTEGER] before and after, and its options are the same
    object with the same contents after each derivation. *)
Theorem INTEGER_UNSIGNED_ZEROFILL `{Host} (h : Heap) :
  exists original h1 unsigned h2 derived h3,
    NUMBER_new INTEGER [] h = (Normal original, h1)
    /\ NUMBER_UNSIGNED original h1 = (Normal unsigned, h2)
    /\ NUMBER_ZEROFILL unsigned h2 = (Normal derived, h3)
    /\ Number_toSql h3 derived = "INTEGER UNSIGNED ZEROFILL"
    /\ Number_toSql h1 original = "INTEGER"
    /\ Number_toSql h3 original = "INTEGER"
    /\ h2 !! options original = h1 !! options original
    /\ h3 !! options original = h1 !! options original.
Proof.
  eexists (Build INTEGER (length h)), (h ++ [_]), _, _, _, _.
  split; [reflexivity|].
  split; [apply NUMBER_UNSIGNED_bag|].
  split; [apply NUMBER_ZEROFILL_bag|].
  cbn [options class_of]. unfold spread. heap_simpl. cbn [own_props].
  unfold Number_toSql, NUMBER_toSql, prop. cbn [options class_of]. heap_simpl.
  by split_and!.
Qed.

Lemma option_values_agree (k0 : string) (v : JSValue)
  (props : gmap string JSValue) :
  all_undefined props ->
  forall k, default VUndefined (<[k0 := v]> props !! k)
            = default VUndefined (({[ k0 := v ]} : gmap string JSValue) !! k).
Proof.
  intros Hprops k. destruct (decide (k0 = k)) as [->|].
  - by rewrite lookup_insert_eq, lookup_singleton_eq.
  - rewrite lookup_insert_ne, lookup_singleton_ne by done. apply Hprops.
Qed.

(** C3. For each class of the numeric family, UNSIGNED (and ZEROFILL) of an
    instance constructed without arguments and UNSIGNED (and ZEROFILL) of
    the class itself are descriptors of that class whose options read the
    same under every name, [length], [decimals], [unsigned] and [zerofill]
    among them. *)
Theorem NUMBER_modifier_of_instance_and_of_class (c : NumberClass) (h : Heap) :
  exists instance h0,
    NUMBER_new c [] h = (Normal instance, h0)
    /\ (exists a ha b hb,
          NUMBER_UNSIGNED instance h0 = (Normal a, ha)
          /\ NUMBER_static_UNSIGNED c h = (Normal b, hb)
          /\ class_of a = class_of b
          /\ forall k, prop ha (options a) k = prop hb (options b) k)
    /\ (exists a ha b hb,
          NUMBER_ZEROFILL instance h0 = (Normal a, ha)
          /\ NUMBER_static_ZEROFILL c h = (Normal b, hb)
          /\ class_of a = class_of b
          /\ forall k, prop ha (options a) k = prop hb (options b) k).
Proof.
  destruct (NUMBER_new_default c h)
    as (instance & h0 & props & Hnew & Hclass & Hoptions & Hprops & _).
  exists instance, h0. split; [done|]. split.
  - eexists _, _, _, _.
    split; [apply NUMBER_UNSIGNED_bag|].
    split; [apply NUMBER_static_UNSIGNED_bag|].
    split; [done|]. intros k. cbn [options]. unfold prop. heap_simpl.
    rewrite (spread_plain _ _ _ Hoptions). by apply option_values_agree.
  - eexists _, _, _, _.
    split; [apply NUMBER_ZEROFILL_bag|].
    split; [apply NUMBER_static_ZEROFILL_bag|].
    split; [done|]. intros k. cbn [options]. unfold prop. heap_simpl.
    rewrite (spread_plain _ _ _ Hoptions). by apply option_values_agree.
Qed.

(** The two bags are not the same bag: the instance keeps the [length] its
    constructor wrote, with the value [undefined]. *)
Lemma NUMBER_bags_differ :
  (<["unsigned" := VBool true]> {[ "length" := VUndefined ]} : gmap string JSValue)
  <> {[ "unsigned" := VBool true ]}.
Proof.
  intros Heq. apply (f_equal (fun m : gmap string JSValue => m !! "length")) in Heq.
  by rewrite lookup_insert_ne, lookup_singleton_eq, lookup_singleton_ne in Heq.
Qed.

(** The renderings the documentation of the module gives, on the empty
    heap: a length, a precision and a scale, and the modifiers in either
    order. *)
Lemma NUMBER_toSql_examples :
  (d ← NUMBER_new INTEGER [num 11]; gets (fun h => Number_toSql (H := plain_host) h d)) []
    = (Normal "INTEGER(11)", [OPlain {[ "length" := num 11 ]}])
  /\ fst ((d ← NUMBER_new DECIMAL [num 10; num 2];
            gets (fun h => Number_toSql (H := plain_host) h d)) [])
     = Normal "DECIMAL(10,2)"
  /\ fst ((d ← NUMBER_new FLOAT [num 5; num 4]; u ← NUMBER_UNSIGNED d;
            gets (fun h => Number_toSql (H := plain_host) h u)) [])
     = Normal "FLOAT(5,4) UNSIGNED"
  /\ fst ((z ← NUMBER_static_ZEROFILL BIGINT; u ← NUMBER_UNSIGNED z;
            gets (fun h => Number_toSql (H := plain_host) h u)) [])
     = Normal "BIGINT UNSIGNED ZEROFILL".
Proof. by split_and!; vm_compute. Qed.

(** ** STRING and CHAR *)

Lemma STRING_new_default (c : StringClass) (h : Heap) :
  STRING_new c [] h =
    (Normal (Build c (length h)),
     h ++ [OPlain (<["binary" := VBool false]> {[ "length" := num 255 ]})]).
Proof. reflexivity. Qed.

Lemma STRING_new_bag (c : StringClass) (bag : loc) (h : Heap) :
  STRING_new c [VRef bag] h =
    (Normal (Build c (length h)),
     h ++ [OPlain (<["binary" := coalesce (prop h bag "binary") (VBool false)]>
                     {[ "length" := coalesce (prop h bag "length") (num 255) ]})]).
Proof. reflexivity. Qed.

(** CHAR, which overrides [toSql], writes its keyword in one word. *)
Lemma CHAR_toSql_default `{Host} (h : Heap) :
  exists this h1,
    STRING_new CHAR [] h = (Normal this, h1)
    /\ String_toSql h1 this = "CHAR(255)".
Proof.
  eexists _, _. split; [apply STRING_new_default|].
  unfold String_toSql, CHAR_toSql, prop. cbn [options class_of]. by heap_simpl.
Qed.

(** C9. A STRING constructed without arguments has the options [length]
    255 and [binary] false, and its [toSql()] is [VAR_CHAR(255)], not
    [VARCHAR(255)]; with the binary option set it is
    [VAR_CHAR(255) BINARY]. *)
Theorem STRING_toSql_default `{Host} (h : Heap) :
  exists this h1 binary h2,
    STRING_new STRING [] h = (Normal this, h1)
    /\ prop h1 (options this) "length" = num 255
    /\ prop h1 (options this) "binary" = VBool false
    /\ String_toSql h1 this = "VAR_CHAR(255)"
    /\ String_toSql h1 this <> "VARCHAR(255)"
    /\ STRING_BINARY this h1 = (Normal binary, h2)
    /\ String_toSql h2 binary = "VAR_CHAR(255) BINARY".
Proof.
  eexists _, _, _, _. split; [apply STRING_new_default|].
  assert (Hsql : String_toSql
            (h ++ [OPlain (<["binary" := VBool false]> {[ "length" := num 255 ]})])
            (Build STRING (length h)) = "VAR_CHAR(255)").
  { unfold String_toSql, STRING_toSql, prop. cbn [options class_of]. by heap_simpl. }
  split; [unfold prop; cbn [options]; by heap_simpl|].
  split; [unfold prop; cbn [options]; by heap_simpl|].
  split; [exact Hsql|]. split; [by rewrite Hsql|].
  split.
  { unfold STRING_BINARY. run. by rewrite STRING_new_bag. }
  cbn [options class_of]. unfold String_toSql, STRING_toSql, prop, spread.
  cbn [options class_of]. by heap_simpl.
Qed.

(** ** ENUM *)

Lemma ENUM_check_members_strings (values : list JSValue) (h : Heap) :
  Forall is_string values -> ENUM_check_members values h = (Normal tt, h).
Proof.
  induction 1 as [|v rest [s ->] _ IH]; [reflexivity|]. exact IH.
Qed.

Lemma ENUM_check_members_throws (values : list JSValue) (h : Heap) :
  Exists (fun v => typeof v <> "string") values ->
  exists m, ENUM_check_members values h = (Throw (TypeError m), h).
Proof.
  induction 1 as [v rest Hv|v rest _ IH]; cbn [ENUM_check_members].
  - destruct v; first [by destruct Hv | by eexists].
  - destruct v; try (by eexists). exact IH.
Qed.

Lemma ENUM_checked_array (h : Heap) (arr : loc) (items : list JSValue) :
  h !! arr = Some (OArray items) ->
  items <> [] -> Forall is_string items ->
  ENUM_checked (VRef arr) h
    = (Normal (length h), h ++ [OPlain {[ "values" := VRef arr ]}]).
Proof.
  intros Harr Hitems Hstrings. unfold ENUM_checked, Get, iterate, prop. run.
  rewrite Harr. cbn [String.eqb Ascii.eqb Bool.eqb]. rewrite strict_eq_length_0.
  rewrite bool_decide_eq_false_2 by (by destruct items).
  rewrite Harr. by rewrite ENUM_check_members_strings.
Qed.

Lemma ENUM_checked_array_rejects (h : Heap) (arr : loc) (items : list JSValue) :
  h !! arr = Some (OArray items) ->
  items = [] \/ Exists (fun v => typeof v <> "string") items ->
  exists m, ENUM_checked (VRef arr) h = (Throw (TypeError m), h).
Proof.
  intros Harr Hitems. unfold ENUM_checked, Get, iterate, prop. run.
  rewrite Harr. cbn [String.eqb Ascii.eqb Bool.eqb]. rewrite strict_eq_length_0.
  destruct items as [|v rest]; [by eexists|].
  rewrite bool_decide_eq_false_2 by done. rewrite Harr.
  destruct Hitems as [|Hitems]; [done|].
  destruct (ENUM_check_members_throws _ h Hitems) as [m ->]. by eexists.
Qed.

Lemma ENUM_values_of_array (h : Heap) (arr : loc) (items : list JSValue) :
  h !! arr = Some (OArray items) ->
  ENUM_values_of [VRef arr] h = (Normal (VRef arr), h).
Proof.
  intros Harr. unfold ENUM_values_of, Array_isArray. js_simpl. run.
  by rewrite Harr.
Qed.

Lemma ENUM_values_of_bag (h : Heap) (bag : loc) (props : gmap string JSValue) :
  h !! bag = Some (OPlain props) ->
  ENUM_values_of [VRef bag] h
    = (Normal (default VUndefined (props !! "values")), h).
Proof.
  intros Hbag. unfold ENUM_values_of, Array_isArray, Get, prop. js_simpl. run.
  by repeat (rewrite Hbag; cbv beta iota).
Qed.

Lemma ENUM_values_of_variadic (h : Heap) (args : list JSValue) :
  isObject (arg args 0) = false ->
  ENUM_values_of args h = (Normal (VRef (length h)), h ++ [OArray args]).
Proof. intros Hfirst. unfold ENUM_values_of. by rewrite Hfirst. Qed.

Lemma ENUM_values_array (h : Heap) (this arr : loc)
  (props : gmap string JSValue) (items : list JSValue) :
  h !! this = Some (OPlain props) ->
  props !! "values" = Some (VRef arr) ->
  h !! arr = Some (OArray items) ->
  ENUM_values h this = Some items.
Proof.
  intros Hthis Hvalues Harr. unfold ENUM_values, array_items.
  rewrite (prop_plain _ _ _ _ Hthis), Hvalues. cbn. by rewrite Harr.
Qed.

(** A single argument that is an array is the array itself, not a list of
    one value. *)
Lemma ENUM_single_array_argument (h : Heap) (arr : loc) (items : list JSValue) :
  h !! arr = Some (OArray items) ->
  items <> [] -> Forall is_string items ->
  exists this h', ENUM_of_arguments [VRef arr] h = (Normal this, h')
                  /\ ENUM_values h' this = Some items.
Proof.
  intros Harr Hitems Hstrings. eexists _, _. split.
  - unfold ENUM_of_arguments, ENUM_constructor. run.
    rewrite (ENUM_values_of_array _ _ _ Harr).
    by rewrite (ENUM_checked_array _ _ _ Harr).
  - eapply ENUM_values_array; [by heap_simpl | done |].
    by apply lookup_app_l_Some.
Qed.

(** Any list of strings that is not empty comes out as [options.values],
    whichever way it went in. *)
Lemma ENUM_conventions_agree (h : Heap) (values : list JSValue) :
  values <> [] -> Forall is_string values ->
  (exists this h', ENUM_of_array values h = (Normal this, h')
                   /\ ENUM_values h' this = Some values)
  /\ (exists this h', ENUM_of_options values h = (Normal this, h')
                      /\ ENUM_values h' this = Some values)
  /\ (exists this h', ENUM_of_arguments values h = (Normal this, h')
                      /\ ENUM_values h' this = Some values).
Proof.
  intros Hvalues Hstrings. split_and!.
  - eexists _, _. split.
    + unfold ENUM_of_array, ENUM_constructor. run.
      rewrite (ENUM_values_of_array _ _ values) by apply lookup_fresh.
      by rewrite (ENUM_checked_array _ _ values); [|apply lookup_fresh|..].
    + eapply ENUM_values_array; [by heap_simpl | done | by heap_simpl].
  - eexists _, _. split.
    + unfold ENUM_of_options, ENUM_constructor. run.
      rewrite (ENUM_values_of_bag _ _ {[ "values" := VRef (length h) ]});
        [|by heap_simpl].
      rewrite lookup_singleton_eq. cbn [default from_option id].
      by rewrite (ENUM_checked_array _ _ values); [|by heap_simpl|..].
    + eapply ENUM_values_array; [by heap_simpl | done | by heap_simpl].
  - assert (Hfirst : isObject (arg values 0) = false).
    { destruct Hstrings as [|v rest [s ->] _]; done. }
    eexists _, _. split.
    + unfold ENUM_of_arguments, ENUM_constructor. run.
      rewrite ENUM_values_of_variadic by done.
      by rewrite (ENUM_checked_array _ _ values); [|apply lookup_fresh|..].
    + eapply ENUM_values_array; [by heap_simpl | done | by heap_simpl].
Qed.

(** C4. ENUM called with the array ["a","b"], with the option bag
    [{values: ["a","b"]}] and with the arguments "a","b" returns, each time,
    a descriptor whose [options.values] is an array of the items "a","b". *)
Theorem ENUM_a_b (h : Heap) :
  let a_b := [VString "a"; VString "b"] in
  (exists this h', ENUM_of_array a_b h = (Normal this, h')
                   /\ ENUM_values h' this = Some a_b)
  /\ (exists this h', ENUM_of_options a_b h = (Normal this, h')
                      /\ ENUM_values h' this = Some a_b)
  /\ (exists this h', ENUM_of_arguments a_b h = (Normal this, h')
                      /\ ENUM_values h' this = Some a_b).
Proof.
  apply ENUM_conventions_agree; [done|].
  repeat constructor; by eexists.
Qed.

(** C5. When the list of values is empty or has a member that is not a
    string, the constructor of ENUM throws a TypeError, and so returns no
    descriptor to validate with: for the list given as an array, given in an
    option bag, and given as the arguments.  Arguments that are a single
    object are not a list of values but the array or the option bag of the
    two other ways of calling. *)
Theorem ENUM_rejects_at_construction (h : Heap) (values : list JSValue) :
  values = [] \/ Exists (fun v => typeof v <> "string") values ->
  (exists m h', ENUM_of_array values h = (Throw (TypeError m), h'))
  /\ (exists m h', ENUM_of_options values h = (Throw (TypeError m), h'))
  /\ ((forall o, values <> [VRef o]) ->
      exists m h', ENUM_of_arguments values h = (Throw (TypeError m), h')).
Proof.
  intros Hvalues. split_and!.
  - unfold ENUM_of_array, ENUM_constructor. run.
    rewrite (ENUM_values_of_array _ _ values) by apply lookup_fresh.
    destruct (ENUM_checked_array_rejects (h ++ [OArray values]) (length h) values)
      as [m ->]; [apply lookup_fresh | done | by eexists _, _].
  - unfold ENUM_of_options, ENUM_constructor. run.
    rewrite (ENUM_values_of_bag _ _ {[ "values" := VRef (length h) ]});
      [|by heap_simpl].
    rewrite lookup_singleton_eq. cbn [default from_option id].
    edestruct (ENUM_checked_array_rejects) as [m ->]; [ | done | by eexists _, _].
    by heap_simpl.
  - intros Hsingle. unfold ENUM_of_arguments, ENUM_constructor. run.
    destruct (isObject (arg values 0)) eqn:Hfirst.
    + destruct values as [|[] [|v rest]]; try discriminate.
      * by destruct (Hsingle l).
      * by eexists _, _.
    + rewrite ENUM_values_of_variadic by done.
      destruct (ENUM_checked_array_rejects (h ++ [OArray values]) (length h) values)
        as [m ->]; [apply lookup_fresh | done | by eexists _, _].
Qed.

Lemma ENUM_rejects_at_construction_witness :
  let values := [num 1; VString "a"] in
  (exists m h', ENUM_of_array values [] = (Throw (TypeError m), h'))
  /\ (exists m h', ENUM_of_options values [] = (Throw (TypeError m), h'))
  /\ (exists m h', ENUM_of_arguments values [] = (Throw (TypeError m), h')).
Proof.
  intros values.
  destruct (ENUM_rejects_at_construction [] values) as (Harray & Hoptions & Harguments).
  - right. by left.
  - split_and!; [exact Harray | exact Hoptions | by apply Harguments].
Defined.

(** ** DATE: equality *)

(** The empty values are the falsy values but [NaN]. *)
Lemma empty_values_falsy (v : JSValue) :
  v ∈ empty_values <-> truthy v = false /\ v <> VNumber NaN.
Proof.
  unfold empty_values. split.
  - intros Hv. repeat (apply elem_of_cons in Hv as [->|Hv]; [done|]).
    by apply elem_of_nil in Hv.
  - intros [Hfalsy Hnan]. destruct v as [| |[]|[]|s|]; try done;
      try (by repeat first [apply list_elem_of_here | apply list_elem_of_further]).
    + cbn in Hfalsy. apply negb_false_iff, Z.eqb_eq in Hfalsy as ->.
      by repeat first [apply list_elem_of_here | apply list_elem_of_further].
    + cbn in Hfalsy. apply negb_false_iff, String.eqb_eq in Hfalsy as ->.
      by repeat first [apply list_elem_of_here | apply list_elem_of_further].
Qed.

(** C6. [areValuesEqual] of DATE is true for two Date objects, one or two,
    of one instant; true for an empty value ([null], [undefined], the empty
    text, [false], zero) and itself; and false, either way round, for a
    falsy value and a Date. *)
Theorem DATE_areValuesEqual_cases (h : Heap) :
  (forall a b t,
     h !! a = Some (ODate (Finite t)) -> h !! b = Some (ODate (Finite t)) ->
     DATE_areValuesEqual h (VRef a) (VRef b) = true)
  /\ (forall v, v ∈ empty_values -> DATE_areValuesEqual h v v = true)
  /\ (forall v d t,
        truthy v = false -> h !! d = Some (ODate t) ->
        DATE_areValuesEqual h v (VRef d) = false
        /\ DATE_areValuesEqual h (VRef d) v = false).
Proof.
  split_and!.
  - intros a b t Ha Hb. unfold DATE_areValuesEqual, instanceof_Date, getTime.
    rewrite Ha, Hb. cbn. rewrite Z.eqb_refl. by rewrite orb_true_r.
  - intros v [Hfalsy Hnan]%empty_values_falsy. unfold DATE_areValuesEqual.
    by rewrite Hfalsy, strict_eq_refl.
  - intros v d t Hfalsy Hd. unfold DATE_areValuesEqual. rewrite Hfalsy. by cbn.
Qed.

Lemma DATE_areValuesEqual_cases_witness :
  let h := [ODate (Finite 86400000); ODate (Finite 86400000)] in
  DATE_areValuesEqual h (VRef 0) (VRef 1) = true
  /\ DATE_areValuesEqual h VNull VNull = true
  /\ DATE_areValuesEqual h VNull (VRef 0) = false
  /\ DATE_areValuesEqual h (VRef 0) VNull = false.
Proof.
  intros h. destruct (DATE_areValuesEqual_cases h) as (Hsame & Hempty & Hone).
  split_and!.
  - by apply (Hsame 0 1 86400000%Z).
  - apply Hempty. apply list_elem_of_here.
  - by apply (Hone VNull 0 (Finite 86400000)).
  - by apply (Hone VNull 0 (Finite 86400000)).
Defined.

(** Two Dates of different instants differ. *)
Lemma DATE_areValuesEqual_instants (h : Heap) (a b : loc) (s t : Z) :
  h !! a = Some (ODate (Finite s)) -> h !! b = Some (ODate (Finite t)) ->
  s <> t -> DATE_areValuesEqual h (VRef a) (VRef b) = false.
Proof.
  intros Ha Hb Hst. unfold DATE_areValuesEqual, instanceof_Date, getTime.
  rewrite Ha, Hb. cbn.
  assert (Hab : a <> b) by (intros ->; congruence).
  apply Nat.eqb_neq in Hab as ->. by apply Z.eqb_neq in Hst as ->.
Qed.

(** [NaN] is falsy and differs from itself; two Dates that are no instant
    (their time is [NaN]) are equal only when they are one object. *)
Lemma DATE_areValuesEqual_NaN (h : Heap) :
  DATE_areValuesEqual h (VNumber NaN) (VNumber NaN) = false.
Proof. reflexivity. Qed.

Lemma DATE_areValuesEqual_invalid (h : Heap) (a b : loc) :
  h !! a = Some (ODate NaN) -> h !! b = Some (ODate NaN) ->
  DATE_areValuesEqual h (VRef a) (VRef b) = bool_decide (a = b).
Proof.
  intros Ha Hb. unfold DATE_areValuesEqual, instanceof_Date, getTime.
  rewrite Ha, Hb. cbn. rewrite orb_false_r.
  case_bool_decide as Hab.
  - subst. by rewrite Nat.eqb_refl.
  - by apply Nat.eqb_neq in Hab as ->.
Qed.

(** ** BOOLEAN *)

Lemma BOOLEAN_parse_number (h : Heap) (z : Z) :
  BOOLEAN_parse h (VNumber (Finite z))
  = if Z.eqb z 1 then VBool true else if Z.eqb z 0 then VBool false else VNull.
Proof.
  unfold BOOLEAN_parse. cbn.
  destruct (Z.eqb_spec z 0) as [->|]; [done|].
  destruct (Z.eqb_spec z 1) as [->|]; [done|]. done.
Qed.

(** A Buffer of one byte is read as that byte; any other object is left as
    it is, and is no boolean. *)
Lemma BOOLEAN_parse_single_byte (h : Heap) (l : loc) (b : Z) :
  h !! l = Some (OBuffer [b]) ->
  BOOLEAN_parse h (VRef l) = BOOLEAN_parse h (VNumber (Finite b)).
Proof.
  intros Hl. unfold BOOLEAN_parse at 1. cbn [nullish].
  rewrite (prop_buffer_length _ _ _ Hl), (prop_buffer_first _ _ _ _ Hl).
  unfold Buffer_isBuffer. by rewrite Hl.
Qed.

Lemma BOOLEAN_parse_object (h : Heap) (l : loc) :
  (forall b, h !! l <> Some (OBuffer [b])) ->
  BOOLEAN_parse h (VRef l) = VNull.
Proof.
  intros Hl. unfold BOOLEAN_parse. cbn [nullish].
  destruct (Buffer_isBuffer h (VRef l)) eqn:Hbuffer; [|done].
  unfold Buffer_isBuffer in Hbuffer.
  destruct (h !! l) as [[props|items|bytes|t|]|] eqn:Hobj; try done.
  rewrite (prop_buffer_length _ _ _ Hobj).
  destruct bytes as [|b [|b' rest]]; [done | by destruct (Hl b) |].
  cbn [andb]. replace (strict_eq _ _) with false; [done|].
  symmetry. apply Z.eqb_neq. cbn [length]. lia.
Qed.

(** [parse] returns the boolean of a recognised representation, and [null]
    for every other value. *)
Lemma BOOLEAN_parse_recognised (h : Heap) (v : JSValue) :
  BOOLEAN_parse h v
  = match BOOLEAN_recognised h v with Some b => VBool b | None => VNull end.
Proof.
  destruct v as [| |b|n|s|l]; try done.
  - destruct n as [| | |z]; try done. rewrite BOOLEAN_parse_number.
    cbn [BOOLEAN_recognised]. by destruct (Z.eqb z 1), (Z.eqb z 0).
  - unfold BOOLEAN_parse, BOOLEAN_recognised. cbn.
    by destruct (String.eqb s "true"), (String.eqb s "false").
  - cbn [BOOLEAN_recognised].
    destruct (h !! l) as [[props|items|[|b [|b' rest]]|t|]|] eqn:Hobj;
      try (rewrite BOOLEAN_parse_object; [done | by rewrite Hobj]).
    rewrite (BOOLEAN_parse_single_byte _ _ _ Hobj), BOOLEAN_parse_number.
    by destruct (Z.eqb b 1), (Z.eqb b 0).
Qed.

(** C7. [sanitize] of BOOLEAN maps a Buffer of the single byte 1 to [true],
    the text [false] to [false], the number 2 to [null] and [null] to
    [null]; it is a function of the value that reads the heap and has no
    throwing step, and it returns [null] for every value that is not one of
    the recognised representations. *)
Theorem BOOLEAN_sanitize_cases (h : Heap) :
  (forall l, h !! l = Some (OBuffer [1%Z]) -> BOOLEAN_sanitize h (VRef l) = VBool true)
  /\ BOOLEAN_sanitize h (VString "false") = VBool false
  /\ BOOLEAN_sanitize h (num 2) = VNull
  /\ BOOLEAN_sanitize h VNull = VNull
  /\ (forall v, BOOLEAN_recognised h v = None -> BOOLEAN_sanitize h v = VNull).
Proof.
  unfold BOOLEAN_sanitize. split_and!; try done.
  - intros l Hl. by rewrite (BOOLEAN_parse_single_byte _ _ _ Hl).
  - intros v Hv. by rewrite BOOLEAN_parse_recognised, Hv.
Qed.

Lemma BOOLEAN_sanitize_cases_witness :
  let h := [OBuffer [1%Z]] in
  BOOLEAN_sanitize h (VRef 0) = VBool true
  /\ BOOLEAN_sanitize h (VBool true) = VNull.
Proof.
  intros h. destruct (BOOLEAN_sanitize_cases h) as (Hbit & _ & _ & _ & Hother).
  split; [by apply Hbit | by apply Hother].
Defined.

(** ** ARRAY *)

Lemma DECIMAL_new_default (h : Heap) :
  exists h1,
    NUMBER_new DECIMAL [] h = (Normal (Build DECIMAL (length h)), h1)
    /\ forall H : Host, DECIMAL_toSql h1 (Build DECIMAL (length h)) = "DECIMAL".
Proof.
  eexists. split.
  - unfold NUMBER_new. js_simpl. run. by rewrite DECIMAL_constructor_default.
  - intros H. unfold DECIMAL_toSql, prop. cbn [options]. by heap_simpl.
Qed.

Lemma ARRAY_validate_array (h : Heap) (arr : loc) (items : list JSValue) :
  h !! arr = Some (OArray items) ->
  ARRAY_validate (VRef arr) h = (Normal true, h).
Proof. intros Harr. unfold ARRAY_validate, Array_isArray. run. by rewrite Harr. Qed.

(** What is not an array does not validate, objects included. *)
Lemma ARRAY_validate_other (h : Heap) (value : JSValue) :
  Array_isArray h value = false ->
  ARRAY_validate value h
  = (Throw (ValidationError (Msg "%j is not a valid array" [value])), h).
Proof. intros Hvalue. unfold ARRAY_validate. run. by rewrite Hvalue. Qed.

(** C8. An ARRAY of DECIMAL, the type given as the class, in an option bag
    or as an instance constructed without arguments, has the [toSql()]
    [DECIMAL[]]; [validate([1,2])] returns, and [validate("x")] throws a
    ValidationError. *)
Theorem ARRAY_of_DECIMAL `{Host} (h : Heap) :
  (exists this h1,
     ARRAY_new (ByType DECIMAL_class) h = (Normal this, h1)
     /\ toSql h1 this = "DECIMAL[]")
  /\ (exists this h1,
        ARRAY_new (ByOptions DECIMAL_class) h = (Normal this, h1)
        /\ toSql h1 this = "DECIMAL[]")
  /\ (exists decimal h0 this h1,
        NUMBER_new DECIMAL [] h = (Normal decimal, h0)
        /\ ARRAY_new (ByType (Instance_ (OfNumber decimal))) h0 = (Normal this, h1)
        /\ toSql h1 this = "DECIMAL[]")
  /\ (exists h1,
        (arr ← alloc (OArray [num 1; num 2]); ARRAY_validate (VRef arr)) h
        = (Normal true, h1))
  /\ ARRAY_validate (VString "x") h
     = (Throw (ValidationError (Msg "%j is not a valid array" [VString "x"])), h).
Proof.
  destruct (DECIMAL_new_default h) as (h1 & Hnew & Hsql).
  split_and!.
  - eexists _, _. split.
    + unfold ARRAY_new, ARRAY_constructor, DECIMAL_class, new_default. run.
      by rewrite Hnew.
    + cbn [toSql]. unfold Number_toSql. cbn [class_of]. by rewrite Hsql.
  - eexists _, _. split.
    + unfold ARRAY_new, ARRAY_constructor, DECIMAL_class, new_default. run.
      by rewrite Hnew.
    + cbn [toSql]. unfold Number_toSql. cbn [class_of]. by rewrite Hsql.
  - eexists _, _, _, _. split; [exact Hnew|]. split; [reflexivity|].
    cbn [toSql]. unfold Number_toSql. cbn [class_of]. by rewrite Hsql.
  - eexists. run. by rewrite (ARRAY_validate_array _ _ _ (lookup_fresh h [] _)).
  - by apply ARRAY_validate_other.
Qed.

(** ** DATE: sanitize *)

(** C10. [sanitize] of DATE returns its input, and leaves the heap as it
    is, when the raw option is truthy, whatever the input.  Otherwise it
    returns a Date as it is; for a string or a number it returns a new
    Date, of the instant the string parses to or the number clips to; and
    for every other input it throws a TypeError. *)
Theorem DATE_sanitize_cases `{Host} (h : Heap) (value options : JSValue) :
  (truthy (Get_optional h options "raw") = true ->
   DATE_sanitize value options h = (Normal value, h))
  /\ (truthy (Get_optional h options "raw") = false ->
      (instanceof_Date h value = true ->
       DATE_sanitize value options h = (Normal value, h))
      /\ (forall s, value = VString s ->
          DATE_sanitize value options h
          = (Normal (VRef (length h)), h ++ [ODate (Date_parse s)]))
      /\ (forall n, value = VNumber n ->
          DATE_sanitize value options h
          = (Normal (VRef (length h)), h ++ [ODate (TimeClip n)]))
      /\ (instanceof_Date h value = false ->
          typeof value <> "string" -> typeof value <> "number" ->
          DATE_sanitize value options h
          = (Throw (TypeError (Msg "%s cannot be converted to a date" [value])),
             h))).
Proof.
  unfold DATE_sanitize. run. split.
  - by intros ->.
  - intros ->. split_and!.
    + by intros ->.
    + by intros s ->.
    + by intros n ->.
    + intros -> Hstring Hnumber. by destruct value.
Qed.

Lemma DATE_sanitize_cases_witness :
  let h := [ODate (Finite 0); OPlain {[ "raw" := VBool true ]}] in
  DATE_sanitize (H := plain_host) (VBool true) (VRef 1) h = (Normal (VBool true), h)
  /\ DATE_sanitize (H := plain_host) (VRef 0) VUndefined h = (Normal (VRef 0), h)
  /\ DATE_sanitize (H := plain_host) (VString "tomorrow") VUndefined h
     = (Normal (VRef 2), h ++ [ODate NaN])
  /\ DATE_sanitize (H := plain_host) (num 5) VUndefined h
     = (Normal (VRef 2), h ++ [ODate (Finite 5)])
  /\ DATE_sanitize (H := plain_host) VNull VUndefined h
     = (Throw (TypeError (Msg "%s cannot be converted to a date" [VNull])), h).
Proof.
  intros h. split_and!.
  - destruct (DATE_sanitize_cases (H := plain_host) h (VBool true) (VRef 1))
      as [Hraw _].
    apply Hraw. reflexivity.
  - destruct (DATE_sanitize_cases (H := plain_host) h (VRef 0) VUndefined)
      as [_ Hcases].
    destruct Hcases as (Hdate & _); [reflexivity|]. apply Hdate. reflexivity.
  - destruct (DATE_sanitize_cases (H := plain_host) h (VString "tomorrow") VUndefined)
      as [_ Hcases].
    destruct Hcases as (_ & Hstring & _); [reflexivity|].
    exact (Hstring "tomorrow" eq_refl).
  - destruct (DATE_sanitize_cases (H := plain_host) h (num 5) VUndefined)
      as [_ Hcases].
    destruct Hcases as (_ & _ & Hnumber & _); [reflexivity|].
    by apply (Hnumber (Finite 5)).
  - destruct (DATE_sanitize_cases (H := plain_host) h VNull VUndefined)
      as [_ Hcases].
    destruct Hcases as (_ & _ & _ & Hother); [reflexivity|].
    apply Hother; [reflexivity | discriminate | discriminate].
Defined.

(** * Properties of the rest of the module *)

(** ** Texts *)

Lemma append_assoc (a b c : string) : (a +:+ b) +:+ c = a +:+ (b +:+ c).
Proof.
  induction a as [|x a IH]; [done|].
  change (String x ((a +:+ b) +:+ c) = String x (a +:+ (b +:+ c))).
  by rewrite IH.
Qed.

(** The text of a value that is no object does not depend on the heap. *)
Lemma String_of_primitive `{Host} (h h' : Heap) (v : JSValue) :
  isObject v = false -> String_of h v = String_of h' v.
Proof. by destruct v. Qed.

(** ** The numeric family: what [toSql] reads *)

Lemma NUMBER_toSql_reads `{Host} (h h' : Heap) (c : NumberClass) (o o' : loc)
  (props props' : gmap string JSValue) :
  h !! o = Some (OPlain props) -> h' !! o' = Some (OPlain props') ->
  (forall k, k ∈ ["length"; "decimals"; "unsigned"; "zerofill"] ->
             props' !! k = props !! k) ->
  isObject (default VUndefined (props !! "length")) = false ->
  isObject (default VUndefined (props !! "decimals")) = false ->
  NUMBER_toSql h' (Build c o') = NUMBER_toSql h (Build c o).
Proof.
  intros Ho Ho' Hsame Hlength Hdecimals. unfold NUMBER_toSql. cbn [options class_of].
  rewrite !(prop_plain _ _ _ _ Ho), !(prop_plain _ _ _ _ Ho').
  rewrite !Hsame by set_solver.
  by rewrite (String_of_primitive h' h _ Hlength),
    (String_of_primitive h' h _ Hdecimals).
Qed.

Lemma DECIMAL_toSql_reads `{Host} (h h' : Heap) (o o' : loc)
  (props props' : gmap string JSValue) :
  h !! o = Some (OPlain props) -> h' !! o' = Some (OPlain props') ->
  (forall k, k ∈ ["precision"; "scale"] -> props' !! k = props !! k) ->
  isObject (default VUndefined (props !! "precision")) = false ->
  isObject (default VUndefined (props !! "scale")) = false ->
  DECIMAL_toSql h' (Build DECIMAL o') = DECIMAL_toSql h (Build DECIMAL o).
Proof.
  intros Ho Ho' Hsame Hprecision Hscale. unfold DECIMAL_toSql, join_non_null.
  cbn [options class_of].
  rewrite !(prop_plain _ _ _ _ Ho), !(prop_plain _ _ _ _ Ho').
  rewrite !Hsame by set_solver.
  destruct (default VUndefined (props !! "precision")) eqn:Hp;
    destruct (default VUndefined (props !! "scale")) eqn:Hs; try done.
Qed.

(** The options a modifier leaves: those of the instance, and the flag. *)
Lemma NUMBER_UNSIGNED_plain (this : Descriptor NumberClass) (h : Heap)
  (props : gmap string JSValue) :
  h !! options this = Some (OPlain props) ->
  exists u h1,
    NUMBER_UNSIGNED this h = (Normal u, h1)
    /\ class_of u = class_of this
    /\ options u = length h + 1
    /\ h1 !! options u = Some (OPlain (<["unsigned" := VBool true]> props))
    /\ h1 !! options this = Some (OPlain props).
Proof.
  intros Hthis. eexists _, _. split; [apply NUMBER_UNSIGNED_bag|].
  cbn [class_of options]. rewrite (spread_plain _ _ _ Hthis).
  split_and!; [done | done | by heap_simpl | by apply lookup_app_l_Some].
Qed.

Lemma NUMBER_ZEROFILL_plain (this : Descriptor NumberClass) (h : Heap)
  (props : gmap string JSValue) :
  h !! options this = Some (OPlain props) ->
  exists z h1,
    NUMBER_ZEROFILL this h = (Normal z, h1)
    /\ class_of z = class_of this
    /\ options z = length h + 1
    /\ h1 !! options z = Some (OPlain (<["zerofill" := VBool true]> props))
    /\ h1 !! options this = Some (OPlain props).
Proof.
  intros Hthis. eexists _, _. split; [apply NUMBER_ZEROFILL_bag|].
  cbn [class_of options]. rewrite (spread_plain _ _ _ Hthis).
  split_and!; [done | done | by heap_simpl | by apply lookup_app_l_Some].
Qed.

(** ** The numeric family: modifiers *)

(** X1. UNSIGNED and ZEROFILL commute, and each is idempotent: on any
    instance, whatever its options, the two orders give descriptors of its
    class whose options read the same under every name, and applying a
    modifier twice gives what applying it once gives. *)
Theorem NUMBER_modifiers_commute (this : Descriptor NumberClass) (h : Heap) :
  exists uz h1 zu h2 uu h3 u h4,
    (u ← NUMBER_UNSIGNED this; NUMBER_ZEROFILL u) h = (Normal uz, h1)
    /\ (z ← NUMBER_ZEROFILL this; NUMBER_UNSIGNED z) h = (Normal zu, h2)
    /\ (u ← NUMBER_UNSIGNED this; NUMBER_UNSIGNED u) h = (Normal uu, h3)
    /\ NUMBER_UNSIGNED this h = (Normal u, h4)
    /\ class_of uz = class_of this /\ class_of zu = class_of this
    /\ class_of uu = class_of this
    /\ (forall k, prop h1 (options uz) k = prop h2 (options zu) k)
    /\ (forall k, prop h3 (options uu) k = prop h4 (options u) k).
Proof.
  eexists _, _, _, _, _, _, _, _.
  split; [run; rewrite NUMBER_UNSIGNED_bag; apply NUMBER_ZEROFILL_bag|].
  split; [run; rewrite NUMBER_ZEROFILL_bag; apply NUMBER_UNSIGNED_bag|].
  split; [run; rewrite NUMBER_UNSIGNED_bag; apply NUMBER_UNSIGNED_bag|].
  split; [apply NUMBER_UNSIGNED_bag|].
  cbn [class_of options]. split_and!; try done.
  - intros k. unfold prop, spread. heap_simpl. cbn [own_props].
    by rewrite insert_insert_ne.
  - intros k. unfold prop, spread. heap_simpl. cbn [own_props].
    by rewrite insert_insert_eq.
Qed.

(** X2. A modifier of an instance returns a descriptor of the same class
    with options of its own: the flag is [true] there, every other option
    reads as it does on the instance, and the options of the instance are
    what they were. *)
Theorem NUMBER_modifier_keeps_options (this : Descriptor NumberClass)
  (h : Heap) (props : gmap string JSValue) :
  h !! options this = Some (OPlain props) ->
  (exists u h1,
     NUMBER_UNSIGNED this h = (Normal u, h1)
     /\ class_of u = class_of this
     /\ options u <> options this
     /\ prop h1 (options u) "unsigned" = VBool true
     /\ (forall k, k <> "unsigned" ->
                   prop h1 (options u) k = prop h (options this) k)
     /\ h1 !! options this = Some (OPlain props))
  /\ (exists z h1,
        NUMBER_ZEROFILL this h = (Normal z, h1)
        /\ class_of z = class_of this
        /\ options z <> options this
        /\ prop h1 (options z) "zerofill" = VBool true
        /\ (forall k, k <> "zerofill" ->
                      prop h1 (options z) k = prop h (options this) k)
        /\ h1 !! options this = Some (OPlain props)).
Proof.
  intros Hthis. pose proof (lookup_lt_Some _ _ _ Hthis) as Hbound. split.
  - destruct (NUMBER_UNSIGNED_plain this h props Hthis)
      as (u & h1 & Hrun & Hclass & Haddress & Hu & Hkept).
    exists u, h1. split_and!; try done.
    + rewrite Haddress. lia.
    + by rewrite (prop_plain _ _ _ _ Hu), lookup_insert_eq.
    + intros k Hk.
      by rewrite (prop_plain _ _ _ _ Hu), (prop_plain _ _ _ _ Hthis),
        lookup_insert_ne.
  - destruct (NUMBER_ZEROFILL_plain this h props Hthis)
      as (z & h1 & Hrun & Hclass & Haddress & Hz & Hkept).
    exists z, h1. split_and!; try done.
    + rewrite Haddress. lia.
    + by rewrite (prop_plain _ _ _ _ Hz), lookup_insert_eq.
    + intros k Hk.
      by rewrite (prop_plain _ _ _ _ Hz), (prop_plain _ _ _ _ Hthis),
        lookup_insert_ne.
Qed.

Lemma NUMBER_modifier_keeps_options_witness :
  let h := [OPlain {[ "length" := num 11 ]}] in
  let this := Build INTEGER 0 in
  exists u h1,
    NUMBER_UNSIGNED this h = (Normal u, h1)
    /\ class_of u = INTEGER
    /\ options u <> 0
    /\ prop h1 (options u) "unsigned" = VBool true
    /\ prop h1 (options u) "length" = num 11
    /\ h1 !! 0 = Some (OPlain {[ "length" := num 11 ]}).
Proof.
  intros h this.
  destruct (NUMBER_modifier_keeps_options this h {[ "length" := num 11 ]} eq_refl)
    as [(u & h1 & Hrun & Hclass & Hfresh & Hflag & Hrest & Hkept) _].
  exists u, h1. split_and!; try done.
  by rewrite Hrest.
Defined.

Lemma append_empty (a : string) : a +:+ "" = a.
Proof.
  induction a as [|x a IH]; [done|].
  change (String x (a +:+ "") = String x a). by rewrite IH.
Qed.

(** What [NUMBER.toSql] renders is what it renders without the flags, and
    then the flags. *)
Lemma NUMBER_toSql_flags `{Host} (h h0 : Heap) (c : NumberClass) (o o0 : loc)
  (props props0 : gmap string JSValue) :
  h !! o = Some (OPlain props) -> h0 !! o0 = Some (OPlain props0) ->
  props !! "length" = props0 !! "length" ->
  props !! "decimals" = props0 !! "decimals" ->
  isObject (default VUndefined (props0 !! "length")) = false ->
  isObject (default VUndefined (props0 !! "decimals")) = false ->
  truthy (default VUndefined (props0 !! "unsigned")) = false ->
  truthy (default VUndefined (props0 !! "zerofill")) = false ->
  NUMBER_toSql h (Build c o)
  = (NUMBER_toSql h0 (Build c o0)
     +:+ (if truthy (default VUndefined (props !! "unsigned"))
          then " UNSIGNED" else ""))
    +:+ (if truthy (default VUndefined (props !! "zerofill"))
         then " ZEROFILL" else "").
Proof.
  intros Ho Ho0 Hlength Hdecimals Hl Hd Hu Hz. unfold NUMBER_toSql.
  cbn [options class_of].
  rewrite !(prop_plain _ _ _ _ Ho), !(prop_plain _ _ _ _ Ho0).
  rewrite Hlength, Hdecimals, Hu, Hz.
  rewrite (String_of_primitive h h0 _ Hl), (String_of_primitive h h0 _ Hd).
  destruct (truthy (default VUndefined (props !! "unsigned"))),
    (truthy (default VUndefined (props !! "zerofill")));
    by rewrite ?append_empty.
Qed.

Lemma Number_toSql_not_DECIMAL `{Host} (h : Heap) (this : Descriptor NumberClass) :
  class_of this <> DECIMAL -> Number_toSql h this = NUMBER_toSql h this.
Proof. unfold Number_toSql. by destruct (class_of this). Qed.

(** X3. For a class of the family other than DECIMAL and an instance
    without flags whose length and decimals are no objects: UNSIGNED
    appends [ UNSIGNED] to the SQL of the instance, ZEROFILL appends
    [ ZEROFILL], and both, in either order, append [ UNSIGNED ZEROFILL]. *)
Theorem NUMBER_toSql_of_modifiers `{Host} (this : Descriptor NumberClass)
  (h : Heap) (props : gmap string JSValue) :
  class_of this <> DECIMAL ->
  h !! options this = Some (OPlain props) ->
  isObject (default VUndefined (props !! "length")) = false ->
  isObject (default VUndefined (props !! "decimals")) = false ->
  truthy (default VUndefined (props !! "unsigned")) = false ->
  truthy (default VUndefined (props !! "zerofill")) = false ->
  exists u h1 z h2 uz h3 zu h4,
    NUMBER_UNSIGNED this h = (Normal u, h1)
    /\ NUMBER_ZEROFILL this h = (Normal z, h2)
    /\ NUMBER_ZEROFILL u h1 = (Normal uz, h3)
    /\ NUMBER_UNSIGNED z h2 = (Normal zu, h4)
    /\ Number_toSql h1 u = Number_toSql h this +:+ " UNSIGNED"
    /\ Number_toSql h2 z = Number_toSql h this +:+ " ZEROFILL"
    /\ Number_toSql h3 uz = Number_toSql h this +:+ " UNSIGNED ZEROFILL"
    /\ Number_toSql h4 zu = Number_toSql h this +:+ " UNSIGNED ZEROFILL".
Proof.
  intros Hclass Hthis Hl Hd Hu Hz. destruct this as [c o]. cbn [class_of options] in *.
  destruct (NUMBER_UNSIGNED_plain (Build c o) h props Hthis)
    as (u & h1 & Hrun_u & Hclass_u & _ & Hopt_u & Hkept_u).
  destruct (NUMBER_ZEROFILL_plain (Build c o) h props Hthis)
    as (z & h2 & Hrun_z & Hclass_z & _ & Hopt_z & Hkept_z).
  destruct (NUMBER_ZEROFILL_plain u h1 _ Hopt_u)
    as (uz & h3 & Hrun_uz & Hclass_uz & _ & Hopt_uz & _).
  destruct (NUMBER_UNSIGNED_plain z h2 _ Hopt_z)
    as (zu & h4 & Hrun_zu & Hclass_zu & _ & Hopt_zu & _).
  destruct u as [cu ou], z as [cz oz], uz as [cuz ouz], zu as [czu ozu].
  cbn [class_of options] in *. subst cu cz cuz czu.
  eexists _, _, _, _, _, _, _, _. split_and!; try done.
  all: rewrite !Number_toSql_not_DECIMAL by done.
  - rewrite (NUMBER_toSql_flags h1 h c ou o _ props Hopt_u Hthis)
      by (by rewrite ?lookup_insert_ne by done).
    rewrite lookup_insert_eq, lookup_insert_ne, Hz by done. cbn [default from_option id truthy].
    by rewrite append_empty.
  - rewrite (NUMBER_toSql_flags h2 h c oz o _ props Hopt_z Hthis)
      by (by rewrite ?lookup_insert_ne by done).
    rewrite lookup_insert_eq, lookup_insert_ne, Hu by done. cbn [default from_option id truthy].
    by rewrite append_empty.
  - rewrite (NUMBER_toSql_flags h3 h c ouz o _ props Hopt_uz Hthis)
      by (by rewrite ?lookup_insert_ne by done).
    rewrite lookup_insert_eq, lookup_insert_ne, lookup_insert_eq by done.
    cbn [default from_option id truthy]. by rewrite append_assoc.
  - rewrite (NUMBER_toSql_flags h4 h c ozu o _ props Hopt_zu Hthis)
      by (by rewrite ?lookup_insert_ne by done).
    rewrite lookup_insert_eq, lookup_insert_ne, lookup_insert_eq by done.
    cbn [default from_option id truthy]. by rewrite append_assoc.
Qed.

Lemma NUMBER_toSql_of_modifiers_witness :
  let h := [OPlain {[ "length" := num 11 ]}] in
  let this := Build BIGINT 0 in
  exists zu h4,
    (z ← NUMBER_ZEROFILL this; NUMBER_UNSIGNED z) h = (Normal zu, h4)
    /\ Number_toSql (H := plain_host) h4 zu = "BIGINT(11) UNSIGNED ZEROFILL".
Proof.
  intros h this.
  destruct (NUMBER_toSql_of_modifiers (H := plain_host) this h
              {[ "length" := num 11 ]})
    as (u & h1 & z & h2 & uz & h3 & zu & h4 & _ & Hz & _ & Hzu & _ & _ & _ & Hsql);
    try done.
  exists zu, h4. split; [|exact Hsql].
  run. by rewrite Hz.
Defined.

(** X4. The SQL of a DECIMAL shows neither flag: with a precision and a
    scale that are no objects, UNSIGNED and ZEROFILL return descriptors
    whose [toSql()] is that of the instance. *)
Theorem DECIMAL_toSql_ignores_modifiers `{Host} (this : Descriptor NumberClass)
  (h : Heap) (props : gmap string JSValue) :
  class_of this = DECIMAL ->
  h !! options this = Some (OPlain props) ->
  isObject (default VUndefined (props !! "precision")) = false ->
  isObject (default VUndefined (props !! "scale")) = false ->
  exists u h1 z h2,
    NUMBER_UNSIGNED this h = (Normal u, h1)
    /\ NUMBER_ZEROFILL this h = (Normal z, h2)
    /\ prop h1 (options u) "unsigned" = VBool true
    /\ prop h2 (options z) "zerofill" = VBool true
    /\ Number_toSql h1 u = Number_toSql h this
    /\ Number_toSql h2 z = Number_toSql h this.
Proof.
  intros Hclass Hthis Hp Hs. destruct this as [c o]. cbn [class_of options] in *.
  subst c.
  destruct (NUMBER_UNSIGNED_plain (Build DECIMAL o) h props Hthis)
    as ([cu ou] & h1 & Hrun_u & Hclass_u & _ & Hopt_u & _).
  destruct (NUMBER_ZEROFILL_plain (Build DECIMAL o) h props Hthis)
    as ([cz oz] & h2 & Hrun_z & Hclass_z & _ & Hopt_z & _).
  cbn [class_of options] in *. subst cu cz.
  eexists _, _, _, _. split_and!; [done | done | | | |].
  - cbn [options]. by rewrite (prop_plain _ _ _ _ Hopt_u), lookup_insert_eq.
  - cbn [options]. by rewrite (prop_plain _ _ _ _ Hopt_z), lookup_insert_eq.
  - unfold Number_toSql. cbn [class_of].
    apply (DECIMAL_toSql_reads h h1 o ou props _ Hthis Hopt_u); [|done..].
    intros k Hk. rewrite lookup_insert_ne; [done|].
    intros <-. by repeat (apply elem_of_cons in Hk as [?|Hk]; [done|]);
      apply elem_of_nil in Hk.
  - unfold Number_toSql. cbn [class_of].
    apply (DECIMAL_toSql_reads h h2 o oz props _ Hthis Hopt_z); [|done..].
    intros k Hk. rewrite lookup_insert_ne; [done|].
    intros <-. by repeat (apply elem_of_cons in Hk as [?|Hk]; [done|]);
      apply elem_of_nil in Hk.
Qed.

Lemma DECIMAL_toSql_ignores_modifiers_witness :
  let props : gmap string JSValue :=
    <["scale" := num 2]> {[ "precision" := num 10 ]} in
  let h := [OPlain props] in
  exists u h1,
    NUMBER_UNSIGNED (Build DECIMAL 0) h = (Normal u, h1)
    /\ Number_toSql (H := plain_host) h1 u = "DECIMAL(10,2)".
Proof.
  intros props h.
  destruct (DECIMAL_toSql_ignores_modifiers (H := plain_host)
              (Build DECIMAL 0) h props)
    as (u & h1 & z & h2 & Hu & _ & _ & _ & Hsql & _); try done.
  exists u, h1. split; [exact Hu|]. by rewrite Hsql.
Defined.

(** ** Ways of constructing *)




(** ** STRING and CHAR: what every instance has *)

Lemma coalesce_not_nullish (a b : JSValue) :
  nullish b = false -> nullish (coalesce a b) = false.
Proof. intros Hb. unfold coalesce. by destruct (nullish a) eqn:Ha. Qed.

Lemma STRING_new_plain (c : StringClass) (args : list JSValue) (h : Heap) :
  exists length binary,
    STRING_new c args h
    = (Normal (Build c (List.length h)),
       h ++ [OPlain (<["binary" := coalesce binary (VBool false)]>
                       {[ "length" := coalesce length (num 255) ]})]).
Proof.
  unfold STRING_new, STRING_constructor.
  destruct (arg args 0) as [| |b|n|s|l] eqn:Harg.
  - by exists VUndefined, (arg args 1).
  - by exists VNull, (arg args 1).
  - by exists (VBool b), (arg args 1).
  - by exists (VNumber n), (arg args 1).
  - by exists (VString s), (arg args 1).
  - by exists (prop h l "length"), (prop h l "binary").
Qed.

(** X6. Constructing a STRING or a CHAR never throws, whatever the
    arguments; in the options of the instance neither [length] nor [binary]
    is null or undefined, and what was on the heap is still there. *)
Theorem STRING_new_never_nullish (c : StringClass) (args : list JSValue)
  (h : Heap) :
  exists this h1,
    STRING_new c args h = (Normal this, h1)
    /\ class_of this = c
    /\ nullish (prop h1 (options this) "length") = false
    /\ nullish (prop h1 (options this) "binary") = false
    /\ forall l o, h !! l = Some o -> h1 !! l = Some o.
Proof.
  destruct (STRING_new_plain c args h) as (length & binary & ->).
  eexists _, _. split_and!; [done | done | | |].
  - cbn [options]. unfold prop. heap_simpl. cbn [own_props].
    rewrite lookup_insert_ne, lookup_singleton_eq by done.
    by apply coalesce_not_nullish.
  - cbn [options]. unfold prop. heap_simpl. cbn [own_props].
    rewrite lookup_insert_eq. by apply coalesce_not_nullish.
  - intros l o Hl. by apply lookup_app_l_Some.
Qed.

Lemma STRING_BINARY_plain (this : Descriptor StringClass) (h : Heap)
  (props : gmap string JSValue) :
  h !! options this = Some (OPlain props) ->
  STRING_BINARY this h
  = (Normal (Build (class_of this) (length h + 1)),
     h ++ [OPlain (<["binary" := VBool true]> props);
           OPlain (<["binary" := VBool true]>
                     {[ "length" := coalesce (default VUndefined (props !! "length"))
                                      (num 255) ]})]).
Proof.
  intros Hthis. unfold STRING_BINARY. run. rewrite STRING_new_bag.
  rewrite (spread_plain _ _ _ Hthis). unfold prop. heap_simpl. cbn [own_props].
  by rewrite lookup_insert_eq, lookup_insert_ne by done.
Qed.

(** X7. [BINARY] of an instance whose [length] is set returns an instance
    of the same class, with options of its own that keep the [length] and
    have [binary] true; the instance it was taken from is as before.  Where
    the [length] is no object and [binary] was not set, the SQL is that of
    the instance with [ BINARY] appended. *)
Theorem STRING_BINARY_keeps_length `{Host} (this : Descriptor StringClass)
  (h : Heap) (props : gmap string JSValue) :
  h !! options this = Some (OPlain props) ->
  nullish (default VUndefined (props !! "length")) = false ->
  exists b h1,
    STRING_BINARY this h = (Normal b, h1)
    /\ class_of b = class_of this
    /\ options b <> options this
    /\ prop h1 (options b) "length" = prop h (options this) "length"
    /\ prop h1 (options b) "binary" = VBool true
    /\ h1 !! options this = Some (OPlain props)
    /\ (isObject (default VUndefined (props !! "length")) = false ->
        truthy (default VUndefined (props !! "binary")) = false ->
        String_toSql h1 b = String_toSql h this +:+ " BINARY").
Proof.
  intros Hthis Hlength. rewrite (STRING_BINARY_plain this h props Hthis).
  assert (Hbound : options this < length h) by (by eapply lookup_lt_Some).
  eexists _, _. split_and!; [done | done | cbn [options]; lia | | | |].
  - cbn [options]. rewrite (prop_plain _ _ _ _ Hthis). unfold prop. heap_simpl.
    cbn [own_props]. rewrite lookup_insert_ne, lookup_singleton_eq by done.
    unfold coalesce. by rewrite Hlength.
  - cbn [options]. unfold prop. heap_simpl. cbn [own_props].
    by rewrite lookup_insert_eq.
  - by apply lookup_app_l_Some.
  - intros Hobject Hbinary.
    unfold String_toSql, STRING_toSql, CHAR_toSql. cbn [class_of options].
    rewrite !(prop_plain _ _ _ _ Hthis).
    assert (Hb : (h ++ [OPlain (<["binary" := VBool true]> props);
                   OPlain (<["binary" := VBool true]>
                     {[ "length" := coalesce (default VUndefined (props !! "length"))
                                      (num 255) ]})]) !! (length h + 1)
                 = Some (OPlain (<["binary" := VBool true]>
                     {[ "length" := coalesce (default VUndefined (props !! "length"))
                                      (num 255) ]}))) by (by heap_simpl).
    rewrite !(prop_plain _ _ _ _ Hb).
    rewrite lookup_insert_eq, lookup_insert_ne, lookup_singleton_eq by done.
    unfold coalesce. rewrite Hlength. cbn [default from_option id].
    rewrite (String_of_primitive _ h _ Hobject).
    unfold js_and. rewrite Hbinary. cbn [truthy].
    unfold joinSQLFragments.
    destruct (class_of this); cbn [omap list_omap truthy String.eqb negb
      String.append Ascii.eqb Bool.eqb String.concat].
    all: first [ change ("VAR_CHAR(" +:+ ?x =? "") with false
               | change ("CHAR(" +:+ ?x =? "") with false ]; cbn [negb].
    all: destruct (default VUndefined (props !! "binary")) as [| |?|?|s|?];
      try done; by rewrite Hbinary.
Qed.

Lemma STRING_BINARY_keeps_length_witness :
  let h := [OPlain (<["binary" := VBool false]> {[ "length" := num 80 ]})] in
  exists b h1,
    STRING_BINARY (Build CHAR 0) h = (Normal b, h1)
    /\ String_toSql (H := plain_host) h1 b = "CHAR(80) BINARY".
Proof.
  intros h.
  destruct (STRING_BINARY_keeps_length (H := plain_host) (Build CHAR 0) h
              (<["binary" := VBool false]> {[ "length" := num 80 ]}))
    as (b & h1 & Hb & _ & _ & _ & _ & _ & Hsql); [reflexivity..|].
  exists b, h1. split; [exact Hb|]. by rewrite Hsql.
Defined.

(** ** STRING.validate *)

Lemma Buffer_isBuffer_grows (h ext : Heap) (v : JSValue) :
  Buffer_isBuffer h v = true -> Buffer_isBuffer (h ++ ext) v = true.
Proof.
  destruct v as [| | | | |l]; try done. unfold Buffer_isBuffer.
  destruct (h !! l) as [o|] eqn:Hl; [|done].
  by rewrite (lookup_app_l_Some _ _ _ _ Hl).
Qed.

Lemma Buffer_not_text (h : Heap) (v : JSValue) :
  Buffer_isBuffer h v = true ->
  String.eqb (typeof v) "string" = false /\ String.eqb (typeof v) "number" = false.
Proof. by destruct v. Qed.

(** X8. A Buffer is a valid value of a STRING or CHAR exactly when the
    [binary] option is set: an instance constructed in any way accepts it
    if its [binary] is truthy and throws a ValidationError if not, and the
    [BINARY] of the instance accepts it in both cases. *)
Theorem STRING_validate_buffer (c : StringClass) (args : list JSValue)
  (h : Heap) (value : JSValue) :
  Buffer_isBuffer h value = true ->
  exists this h1 b h2,
    STRING_new c args h = (Normal this, h1)
    /\ STRING_BINARY this h1 = (Normal b, h2)
    /\ STRING_validate this value h1
       = (if truthy (prop h1 (options this) "binary") then Normal tt
          else Throw (ValidationError (Msg "%j is not a valid string" [value])),
          h1)
    /\ STRING_validate b value h2 = (Normal tt, h2).
Proof.
  intros Hbuffer.
  destruct (STRING_new_plain c args h) as (length & binary & Hnew).
  set (props := <["binary" := coalesce binary (VBool false)]>
                  {[ "length" := coalesce length (num 255) ]}
                : gmap string JSValue).
  assert (Hthis : (h ++ [OPlain props]) !! List.length h = Some (OPlain props))
    by apply lookup_fresh.
  destruct (Buffer_not_text h value Hbuffer) as [Hstring Hnumber].
  eexists _, _, _, _.
  split; [exact Hnew|].
  split; [exact (STRING_BINARY_plain (Build c (List.length h)) _ props Hthis)|].
  split.
  - unfold STRING_validate. rewrite Hstring. run. rewrite Hnumber.
    rewrite (Buffer_isBuffer_grows _ _ _ Hbuffer).
    by destruct (truthy _).
  - unfold STRING_validate. rewrite Hstring. run. rewrite Hnumber.
    rewrite <- app_assoc. rewrite (Buffer_isBuffer_grows _ _ _ Hbuffer).
    cbn [options class_of]. unfold prop. heap_simpl. cbn [own_props].
    by rewrite lookup_insert_eq.
Qed.

Lemma STRING_validate_buffer_witness :
  let h := [OBuffer [104; 105]%Z] in
  exists this h1 b h2 e,
    STRING_new STRING [] h = (Normal this, h1)
    /\ STRING_BINARY this h1 = (Normal b, h2)
    /\ STRING_validate this (VRef 0) h1 = (Throw (ValidationError e), h1)
    /\ STRING_validate b (VRef 0) h2 = (Normal tt, h2).
Proof.
  intros h.
  destruct (STRING_validate_buffer STRING [] h (VRef 0))
    as (this & h1 & b & h2 & Hnew & Hbinary & Hthis & Hb); [reflexivity|].
  exists this, h1, b, h2. eexists. split_and!; [done | done | | done].
  rewrite Hthis. injection Hnew as <- <-. reflexivity.
Defined.

(** ** extend *)

(** X9. [extend] makes a descriptor of the class it is called on out of
    the options of another: the options are copied into a new object that
    reads the same under every name, the other descriptor is untouched,
    and for a descriptor of the same class whose options hold no objects
    the SQL is the same. *)
Theorem NUMBER_extend_copies `{Host} (c : NumberClass)
  (oldType : Descriptor NumberClass) (h : Heap) (props : gmap string JSValue) :
  h !! options oldType = Some (OPlain props) ->
  exists this h1,
    NUMBER_extend c (options oldType) h = (Normal this, h1)
    /\ class_of this = c
    /\ options this <> options oldType
    /\ (forall k, prop h1 (options this) k = prop h (options oldType) k)
    /\ h1 !! options oldType = Some (OPlain props)
    /\ (class_of oldType = c ->
        (forall k, isObject (default VUndefined (props !! k)) = false) ->
        Number_toSql h1 this = Number_toSql h oldType).
Proof.
  intros Hold. unfold NUMBER_extend. rewrite (NUMBER_new_bag c _ h props Hold).
  assert (Hbound : options oldType < length h) by (by eapply lookup_lt_Some).
  assert (Hnew : (h ++ [OPlain props]) !! length h = Some (OPlain props))
    by apply lookup_fresh.
  eexists _, _. split_and!; [done | done | cbn [options]; lia | | |].
  - intros k. cbn [options].
    by rewrite (prop_plain _ _ _ _ Hold), (prop_plain _ _ _ _ Hnew).
  - by apply lookup_app_l_Some.
  - intros Hclass Hplain. destruct oldType as [c' o]. cbn [class_of options] in *.
    subst c'. unfold Number_toSql. cbn [class_of].
    destruct c;
      first [ by apply (DECIMAL_toSql_reads h _ o _ props props Hold Hnew)
            | by apply (NUMBER_toSql_reads h _ _ o _ props props Hold Hnew) ].
Qed.

Lemma NUMBER_extend_copies_witness :
  let props : gmap string JSValue :=
    <["unsigned" := VBool true]> {[ "length" := num 8 ]} in
  let h := [OPlain props] in
  exists this h1,
    NUMBER_extend INTEGER 0 h = (Normal this, h1)
    /\ Number_toSql (H := plain_host) h1 this = "INTEGER(8) UNSIGNED".
Proof.
  intros props h.
  destruct (NUMBER_extend_copies (H := plain_host) INTEGER (Build INTEGER 0)
              h props)
    as (this & h1 & Hrun & _ & _ & _ & _ & Hsql); [reflexivity|].
  exists this, h1. split; [exact Hrun|]. rewrite Hsql; [reflexivity..|].
  intros k. cbn. unfold props.
  destruct (decide (k = "unsigned")) as [->|]; [by rewrite lookup_insert_eq|].
  rewrite lookup_insert_ne by done.
  destruct (decide (k = "length")) as [->|]; [by rewrite lookup_singleton_eq|].
  by rewrite lookup_singleton_ne.
Defined.

(** ** DATE and DATEONLY *)

Lemma strict_eq_truthy (a b : JSValue) :
  strict_eq a b = true -> truthy a = truthy b.
Proof.
  destruct a as [| |x|x|x|x], b as [| |y|y|y|y]; try done; cbn [strict_eq].
  - by intros ->%Bool.eqb_prop.
  - destruct x, y; try done. cbn. by intros ->%Z.eqb_eq.
  - by intros ->%String.eqb_eq.
Qed.

Lemma strict_eq_sym (a b : JSValue) : strict_eq a b = strict_eq b a.
Proof.
  destruct a as [| |x|x|x|x], b as [| |y|y|y|y]; try done; cbn [strict_eq].
  - by destruct x, y.
  - destruct x, y; try done. apply Z.eqb_sym.
  - apply String.eqb_sym.
  - apply Nat.eqb_sym.
Qed.

Lemma Get_optional_after_Date (h : Heap) (t : JSNumber) (v : JSValue) (k : string) :
  Get_optional (h ++ [ODate t]) v k = Get_optional h v k.
Proof.
  destruct v as [| | | | |l]; try done. cbn [Get_optional]. unfold prop.
  destruct (h !! l) as [o|] eqn:Hl.
  - by rewrite (lookup_app_l_Some _ _ _ _ Hl).
  - apply lookup_ge_None in Hl. rewrite lookup_app_r by done.
    by destruct (l - length h) as [|[|?]].
Qed.

(** X10. Sanitizing a text or a number with DATE twice gives two Date
    objects; [areValuesEqual] takes them for equal, so the value counts as
    unchanged, unless the Dates are invalid (their time is NaN): an invalid
    Date equals only itself. *)
Theorem DATE_sanitize_then_compare `{Host} (h : Heap) (value options : JSValue)
  (t : JSNumber) :
  time_value value = Some t ->
  truthy (Get_optional h options "raw") = false ->
  exists d1 h1 d2 h2,
    DATE_sanitize value options h = (Normal d1, h1)
    /\ DATE_sanitize value options h1 = (Normal d2, h2)
    /\ d1 <> d2
    /\ DATE_areValuesEqual h2 d1 d2 = negb (Number_isNaN t)
    /\ DATE_areValuesEqual h2 d1 d1 = true.
Proof.
  intros Htime Hraw.
  assert (Hrun : forall h', truthy (Get_optional h' options "raw") = false ->
            DATE_sanitize value options h'
            = (Normal (VRef (length h')), h' ++ [ODate t])).
  { intros h' Hraw'. unfold DATE_sanitize. run. rewrite Hraw'.
    destruct value; try done; cbn in Htime; by injection Htime as <-. }
  exists (VRef (length h)), (h ++ [ODate t]),
    (VRef (length (h ++ [ODate t]))), ((h ++ [ODate t]) ++ [ODate t]).
  split_and!.
  - by apply Hrun.
  - apply Hrun. by rewrite Get_optional_after_Date.
  - rewrite length_app. cbn. intros [=]. lia.
  - unfold DATE_areValuesEqual, instanceof_Date, getTime. heap_simpl.
    cbn [truthy strict_eq andb]. replace (length h =? length h + 1)%nat with false
      by (symmetry; apply Nat.eqb_neq; lia).
    destruct t; cbn; try done. by rewrite Z.eqb_refl.
  - unfold DATE_areValuesEqual, instanceof_Date, getTime. heap_simpl.
    cbn [truthy strict_eq andb]. by rewrite Nat.eqb_refl.
Qed.

Lemma DATE_sanitize_then_compare_witness :
  exists d1 h1 d2 h2,
    DATE_sanitize (H := plain_host) (num 86400000) VUndefined [] = (Normal d1, h1)
    /\ DATE_sanitize (H := plain_host) (num 86400000) VUndefined h1 = (Normal d2, h2)
    /\ d1 <> d2
    /\ DATE_areValuesEqual h2 d1 d2 = true.
Proof.
  destruct (DATE_sanitize_then_compare (H := plain_host) [] (num 86400000)
              VUndefined (Finite 86400000))
    as (d1 & h1 & d2 & h2 & H1 & H2 & Hne & Heq & _); [reflexivity..|].
  by exists d1, h1, d2, h2.
Defined.

(** X11. [areValuesEqual] of DATEONLY is strict equality and nothing else,
    while that of DATE also takes two Dates of one time for equal.  So what
    DATEONLY calls equal DATE calls equal, both are symmetric, and two
    Date objects of one instant are the same value for DATE and a changed
    value for DATEONLY. *)
Theorem DATEONLY_areValuesEqual_strict (h : Heap) (value originalValue : JSValue) :
  DATEONLY_areValuesEqual value originalValue = strict_eq value originalValue
  /\ DATE_areValuesEqual h value originalValue
     = strict_eq value originalValue
       || (instanceof_Date h value && instanceof_Date h originalValue
           && strict_eq (getTime h value) (getTime h originalValue))
  /\ DATEONLY_areValuesEqual value originalValue
     = DATEONLY_areValuesEqual originalValue value
  /\ DATE_areValuesEqual h value originalValue
     = DATE_areValuesEqual h originalValue value
  /\ (forall a b t,
        value = VRef a -> originalValue = VRef b -> a <> b ->
        h !! a = Some (ODate (Finite t)) -> h !! b = Some (ODate (Finite t)) ->
        DATE_areValuesEqual h value originalValue = true
        /\ DATEONLY_areValuesEqual value originalValue = false).
Proof.
  assert (Hdateonly : forall v o, DATEONLY_areValuesEqual v o = strict_eq v o).
  { intros v o. unfold DATEONLY_areValuesEqual. rewrite (strict_eq_sym o v).
    destruct (strict_eq v o) eqn:Heq.
    - rewrite (strict_eq_truthy _ _ Heq). by destruct (truthy o).
    - by rewrite !andb_false_r. }
  assert (Hdate : forall v o, DATE_areValuesEqual h v o
            = strict_eq v o
              || (instanceof_Date h v && instanceof_Date h o
                  && strict_eq (getTime h v) (getTime h o))).
  { intros v o. unfold DATE_areValuesEqual. rewrite (strict_eq_sym o v).
    destruct (strict_eq v o) eqn:Heq.
    - rewrite (strict_eq_truthy _ _ Heq). by destruct (truthy o).
    - rewrite andb_false_r. cbn [orb].
      destruct (instanceof_Date h v) eqn:Hv; [|by rewrite andb_false_r].
      destruct (instanceof_Date h o) eqn:Ho; [|by rewrite andb_false_r].
      destruct v, o; try done. cbn [truthy andb orb].
      by destruct (strict_eq (getTime h _) (getTime h _)). }
  split_and!.
  - apply Hdateonly.
  - apply Hdate.
  - rewrite !Hdateonly. apply strict_eq_sym.
  - rewrite !Hdate. rewrite (strict_eq_sym value originalValue).
    rewrite (strict_eq_sym (getTime h value)).
    by rewrite (andb_comm (instanceof_Date h value)).
  - intros a b t -> -> Hab Ha Hb. rewrite Hdateonly, Hdate.
    unfold instanceof_Date, getTime. rewrite Ha, Hb. cbn.
    apply Nat.eqb_neq in Hab as ->. by rewrite Z.eqb_refl.
Qed.

Lemma DATEONLY_areValuesEqual_strict_witness :
  let h := [ODate (Finite 86400000); ODate (Finite 86400000)] in
  DATE_areValuesEqual h (VRef 0) (VRef 1) = true
  /\ DATEONLY_areValuesEqual (VRef 0) (VRef 1) = false.
Proof.
  intros h.
  destruct (DATEONLY_areValuesEqual_strict h (VRef 0) (VRef 1))
    as (_ & _ & _ & _ & Hdates).
  by apply (Hdates 0 1 86400000%Z).
Defined.

(** X12. DATEONLY checks the type of the value before it looks at [raw]:
    a value that is no text, number or Date is a TypeError even with [raw]
    set, where DATE returns it as it is.  A value of these types comes back
    unchanged when [raw] is set or the value is falsy, and as the text of
    its day otherwise; the heap is never written to. *)
Theorem DATEONLY_sanitize_cases `{Host} `{Moment} (h : Heap)
  (value options : JSValue) :
  (typeof value <> "string" -> typeof value <> "number" ->
   instanceof_Date h value = false ->
   DATEONLY_sanitize value options h
   = (Throw (TypeError
        (Msg "%s cannot be normalized into a DateOnly string." [value])), h)
   /\ (truthy (Get_optional h options "raw") = true ->
       DATE_sanitize value options h = (Normal value, h)))
  /\ (typeof value = "string" \/ typeof value = "number"
      \/ instanceof_Date h value = true ->
      DATEONLY_sanitize value options h
      = (Normal (if truthy (Get_optional h options "raw") then value
                 else if truthy value
                      then VString (moment_format h value "YYYY-MM-DD")
                      else value), h)).
Proof.
  split.
  - intros Hstring Hnumber Hdate. split.
    + unfold DATEONLY_sanitize. run. rewrite Hdate.
      by destruct value.
    + intros Hraw. unfold DATE_sanitize. run. by rewrite Hraw.
  - intros Htype. unfold DATEONLY_sanitize. run.
    assert (Hcheck : negb (String.eqb (typeof value) "string")
                     && negb (String.eqb (typeof value) "number")
                     && negb (instanceof_Date h value) = false).
    { destruct Htype as [Ht|[Ht|Ht]]; rewrite Ht; cbn;
        by rewrite ?andb_false_r. }
    rewrite Hcheck.
    by destruct (truthy (Get_optional h options "raw")), (truthy value).
Qed.

Lemma DATEONLY_sanitize_cases_witness :
  let moment := {| moment_format := fun _ _ _ => "1970-01-02" |} in
  DATEONLY_sanitize (H := moment) (VBool true) VUndefined []
  = (Throw (TypeError
       (Msg "%s cannot be normalized into a DateOnly string." [VBool true])), [])
  /\ DATEONLY_sanitize (H := moment) (num 0) VUndefined [] = (Normal (num 0), [])
  /\ DATEONLY_sanitize (H := moment) (num 86400000) VUndefined []
     = (Normal (VString "1970-01-02"), []).
Proof.
  intros moment.
  destruct (DATEONLY_sanitize_cases (H := plain_host) (H0 := moment) []
              (VBool true) VUndefined) as [Hthrow _].
  destruct (DATEONLY_sanitize_cases (H := plain_host) (H0 := moment) []
              (num 0) VUndefined) as [_ Hzero].
  destruct (DATEONLY_sanitize_cases (H := plain_host) (H0 := moment) []
              (num 86400000) VUndefined) as [_ Hday].
  split_and!.
  - by apply Hthrow.
  - apply Hzero. by right; left.
  - apply Hday. by right; left.
Defined.

(** ** BOOLEAN *)

(** X13. [sanitize] of BOOLEAN returns true, false or null and nothing
    else, and it does not take its own results: a boolean is not among the
    representations that [parse] reads, so sanitizing a sanitized value
    gives null, whatever the value was. *)
Theorem BOOLEAN_sanitize_twice (h : Heap) (value : JSValue) :
  BOOLEAN_sanitize h value ∈ [VBool true; VBool false; VNull]
  /\ BOOLEAN_sanitize h (BOOLEAN_sanitize h value) = VNull.
Proof.
  unfold BOOLEAN_sanitize. rewrite (BOOLEAN_parse_recognised h value).
  destruct (BOOLEAN_recognised h value) as [[]|]; split; try done.
  all: repeat first [ by apply list_elem_of_here | apply list_elem_of_further ].
Qed.

(** ** ENUM: what the constructor leaves, and validate *)

Lemma same_value_zero_eq (a b : JSValue) : same_value_zero a b = true <-> a = b.
Proof.
  destruct a as [| |x|[| | |x]|x|x], b as [| |y|[| | |y]|y|y]; try done;
    cbn [same_value_zero strict_eq Number_equal].
  - rewrite Bool.eqb_true_iff. split; congruence.
  - rewrite Z.eqb_eq. split; congruence.
  - rewrite String.eqb_eq. split; congruence.
  - rewrite Nat.eqb_eq. split; congruence.
Qed.

Lemma includes_elem_of (value : JSValue) (items : list JSValue) :
  existsb (same_value_zero value) items = bool_decide (value ∈ items).
Proof.
  induction items as [|item items IH]; [done|]. cbn [existsb].
  destruct (same_value_zero value item) eqn:Hitem.
  - apply same_value_zero_eq in Hitem as ->. cbn [orb]. symmetry.
    apply bool_decide_eq_true_2, list_elem_of_here.
  - cbn [orb]. rewrite IH. apply bool_decide_ext. rewrite elem_of_cons.
    split; [by right|]. intros [->|]; [|done].
    assert (same_value_zero item item = true) as Hrefl by (by apply same_value_zero_eq).
    congruence.
Qed.

Lemma ENUM_values_kept_array (h : Heap) (this : loc) (items : list JSValue) :
  ENUM_values h this = Some items ->
  ENUM_values_kept h this = Some (ValuesArray items).
Proof.
  unfold ENUM_values, ENUM_values_kept, array_items.
  destruct (prop h this "values") as [| | | | |l]; try done.
  destruct (h !! l) as [[]|]; try done. by intros [= ->].
Qed.

Lemma ENUM_validate_array `{Host} (h : Heap) (this : loc)
  (items : list JSValue) (value : JSValue) :
  ENUM_values h this = Some items ->
  ENUM_validate this value h
  = (if bool_decide (value ∈ items) then Normal tt
     else Throw (ValidationError (Msg "%j is not a valid choice in %j"
                                    [value; prop h this "values"])), h).
Proof.
  intros Hvalues. unfold ENUM_validate.
  rewrite (ENUM_values_kept_array _ _ _ Hvalues). cbn [ENUM_includes].
  rewrite includes_elem_of. by case_bool_decide.
Qed.


Lemma chars_strings (s : string) : Forall is_string (chars s).
Proof.
  unfold chars. induction (list_ascii_of_string s) as [|c rest IH]; cbn.
  - constructor.
  - constructor; [by eexists | done].
Qed.




(** X15. An ENUM made from a list of texts, in any of the three ways of
    calling, validates exactly the members of the list: a value that is in
    the list passes, and any other value, a number or a text in another
    case among them, is a ValidationError. *)
Theorem ENUM_validate_members `{Host} (h : Heap) (values : list JSValue) :
  values <> [] -> Forall is_string values ->
  let validates (this : loc) (h' : Heap) :=
    forall value,
      ENUM_validate this value h'
      = (if bool_decide (value ∈ values) then Normal tt
         else Throw (ValidationError (Msg "%j is not a valid choice in %j"
                                        [value; prop h' this "values"])), h') in
  (exists this h', ENUM_of_array values h = (Normal this, h')
                   /\ validates this h')
  /\ (exists this h', ENUM_of_options values h = (Normal this, h')
                      /\ validates this h')
  /\ (exists this h', ENUM_of_arguments values h = (Normal this, h')
                      /\ validates this h').
Proof.
  intros Hvalues Hstrings validates.
  destruct (ENUM_conventions_agree h values Hvalues Hstrings)
    as ((t1 & h1 & Hrun1 & Hkept1) & (t2 & h2 & Hrun2 & Hkept2)
        & (t3 & h3 & Hrun3 & Hkept3)).
  split_and!; eexists _, _; (split; [eassumption|]); intros value;
    by apply ENUM_validate_array.
Qed.

Lemma ENUM_validate_members_witness :
  exists this h' e,
    ENUM_of_arguments [VString "red"; VString "green"] [] = (Normal this, h')
    /\ ENUM_validate (H := plain_host) this (VString "green") h' = (Normal tt, h')
    /\ ENUM_validate (H := plain_host) this (VString "Green") h'
       = (Throw (ValidationError e), h').
Proof.
  destruct (ENUM_validate_members (H := plain_host) []
              [VString "red"; VString "green"])
    as (_ & _ & this & h' & Hrun & Hvalidates).
  - done.
  - repeat constructor; by eexists.
  - exists this, h'. eexists. split_and!; [exact Hrun | |].
    + by rewrite Hvalidates.
    + by rewrite Hvalidates.
Defined.

(** X16. The constructor of ENUM takes an option bag whose [values] is a
    text that is not empty, for every character of a text is a text; the
    ENUM then validates by [includes] of that text: every value whose text
    is a part of it passes, the empty text among them. *)
Theorem ENUM_values_text `{Host} (h : Heap) (bag : loc)
  (props : gmap string JSValue) (s : string) :
  h !! bag = Some (OPlain props) ->
  props !! "values" = Some (VString s) ->
  s <> "" ->
  exists this h',
    ENUM_constructor [VRef bag] h = (Normal this, h')
    /\ prop h' this "values" = VString s
    /\ (forall value,
          ENUM_validate this value h'
          = (if String_includes (String_of h' value) s then Normal tt
             else Throw (ValidationError (Msg "%j is not a valid choice in %j"
                                            [value; VString s])), h'))
    /\ ENUM_validate this (VString "") h' = (Normal tt, h').
Proof.
  intros Hbag Hvalues Hs.
  assert (Hrun : ENUM_constructor [VRef bag] h
                 = (Normal (length h), h ++ [OPlain {[ "values" := VString s ]}])).
  { unfold ENUM_constructor. run. rewrite (ENUM_values_of_bag _ _ _ Hbag), Hvalues.
    cbn [default from_option id]. unfold ENUM_checked, Get, iterate. run.
    cbn [String.eqb Ascii.eqb Bool.eqb]. rewrite strict_eq_length_0.
    rewrite bool_decide_eq_false_2 by (by destruct s).
    by rewrite (ENUM_check_members_strings _ _ (chars_strings s)). }
  assert (Hprop : prop (h ++ [OPlain {[ "values" := VString s ]}]) (length h)
                    "values" = VString s).
  { unfold prop. heap_simpl. cbn [own_props]. by rewrite lookup_singleton_eq. }
  assert (Hvalidate : forall value,
            ENUM_validate (length h) value (h ++ [OPlain {[ "values" := VString s ]}])
            = (if String_includes
                    (String_of (h ++ [OPlain {[ "values" := VString s ]}]) value) s
               then Normal tt
               else Throw (ValidationError (Msg "%j is not a valid choice in %j"
                                              [value; VString s])),
               h ++ [OPlain {[ "values" := VString s ]}])).
  { intros value. unfold ENUM_validate, ENUM_values_kept. rewrite Hprop.
    cbn [ENUM_includes]. by destruct (String_includes _ s). }
  eexists _, _. split_and!; [exact Hrun | exact Hprop | exact Hvalidate |].
  rewrite Hvalidate. cbn [String_of]. by destruct s.
Qed.

Lemma ENUM_values_text_witness :
  let h := [OPlain {[ "values" := VString "small,large" ]}] in
  exists this h',
    ENUM_constructor [VRef 0] h = (Normal this, h')
    /\ ENUM_validate (H := plain_host) this (VString "all") h' = (Normal tt, h').
Proof.
  intros h.
  destruct (ENUM_values_text (H := plain_host) h 0
              {[ "values" := VString "small,large" ]} "small,large")
    as (this & h' & Hrun & _ & Hvalidate & _); [reflexivity | reflexivity | done |].
  exists this, h'. split; [exact Hrun|]. by rewrite Hvalidate.
Defined.

(** X17. Called with an array, ENUM keeps that very array as its [values],
    not a copy: a value the caller appends to the array afterwards is a
    valid choice from then on, though it was none when the ENUM was made.
    Called with the values themselves, ENUM keeps an array of its own. *)
Theorem ENUM_values_shared `{Host} (h : Heap) (arr : loc)
  (items : list JSValue) (value : JSValue) :
  h !! arr = Some (OArray items) ->
  items <> [] -> Forall is_string items ->
  value ∉ items ->
  exists this h',
    ENUM_constructor [VRef arr] h = (Normal this, h')
    /\ prop h' this "values" = VRef arr
    /\ ENUM_validate this value h'
       = (Throw (ValidationError (Msg "%j is not a valid choice in %j"
                                    [value; VRef arr])), h')
    /\ (let pushed := <[arr := OArray (items ++ [value])]> h' in
        ENUM_validate this value pushed = (Normal tt, pushed))
    /\ exists own h'',
         ENUM_constructor items h = (Normal own, h'')
         /\ prop h'' own "values" = VRef (length h).
Proof.
  intros Harr Hitems Hstrings Hvalue.
  assert (Hbound : arr < length h) by (by eapply lookup_lt_Some).
  assert (Hrun : ENUM_constructor [VRef arr] h
                 = (Normal (length h), h ++ [OPlain {[ "values" := VRef arr ]}])).
  { unfold ENUM_constructor. run. rewrite (ENUM_values_of_array _ _ _ Harr).
    by rewrite (ENUM_checked_array _ _ _ Harr). }
  eexists _, _. split; [exact Hrun|].
  assert (Hprop : prop (h ++ [OPlain {[ "values" := VRef arr ]}]) (length h)
                    "values" = VRef arr).
  { unfold prop. heap_simpl. cbn [own_props]. by rewrite lookup_singleton_eq. }
  split_and!; [exact Hprop | | |].
  - rewrite (ENUM_validate_array _ _ items).
    + by rewrite Hprop, bool_decide_eq_false_2.
    + unfold ENUM_values, array_items. rewrite Hprop.
      by rewrite (lookup_app_l_Some _ _ _ _ Harr).
  - cbn zeta. rewrite insert_app_l by done.
    rewrite (ENUM_validate_array _ _ (items ++ [value])).
    + rewrite bool_decide_eq_true_2; [done|]. apply elem_of_app. right.
      apply list_elem_of_here.
    + assert (Hlength : length h = length (<[arr := OArray (items ++ [value])]> h))
        by (by rewrite length_insert).
      unfold ENUM_values, array_items, prop. rewrite Hlength. heap_simpl.
      cbn [own_props]. rewrite lookup_singleton_eq. cbn [default from_option id].
      rewrite lookup_app_l by (by rewrite length_insert).
      by rewrite list_lookup_insert_eq.
  - assert (Hfirst : isObject (arg items 0) = false).
    { destruct Hstrings as [|v rest [s ->] _]; done. }
    eexists _, _. split.
    + unfold ENUM_constructor. run. rewrite ENUM_values_of_variadic by done.
      by rewrite (ENUM_checked_array _ _ items); [|apply lookup_fresh|..].
    + unfold prop. heap_simpl. cbn [own_props]. by rewrite lookup_singleton_eq.
Qed.

Lemma ENUM_values_shared_witness :
  let h := [OArray [VString "a"; VString "b"]] in
  exists this h',
    ENUM_constructor [VRef 0] h = (Normal this, h')
    /\ (let pushed := <[0 := OArray [VString "a"; VString "b"; VString "c"]]> h' in
        ENUM_validate (H := plain_host) this (VString "c") pushed
        = (Normal tt, pushed)).
Proof.
  intros h.
  destruct (ENUM_values_shared (H := plain_host) h 0
              [VString "a"; VString "b"] (VString "c"))
    as (this & h' & Hrun & _ & _ & Hpushed & _).
  - reflexivity.
  - done.
  - repeat constructor; by eexists.
  - intros Hc. repeat (apply elem_of_cons in Hc as [Hc|Hc]; [done|]).
    by apply elem_of_nil in Hc.
  - by exists this, h'.
Defined.

(** ** ARRAY and RANGE: the type inside *)





Lemma ancestors_upto_extends (fuel : nat) (c type : Class) :
  type ∈ ancestors_upto fuel c -> extends c type.
Proof.
  revert c. induction fuel as [|fuel IH]; intros c; cbn [ancestors_upto].
  - intros ->%list_elem_of_singleton. constructor.
  - destruct (superclass c) as [parent|] eqn:Hparent.
    + intros [->|Hin]%elem_of_cons; [constructor|].
      eapply extends_parent; [done | by apply IH].
    + intros ->%list_elem_of_singleton. constructor.
Qed.

Lemma extends_ancestors (c type : Class) : extends c type -> type ∈ ancestors c.
Proof.
  induction 1 as [c|c parent a Hparent _ IH].
  - apply list_elem_of_here.
  - revert IH. destruct c as [[]|[]| | | |]; try done;
      injection Hparent as <-; unfold ancestors; cbn;
      rewrite !elem_of_cons; tauto.
Qed.

(** X19. [ARRAY.is(obj, type)] holds exactly when [obj] is an ARRAY and
    the class of the type inside is [type] or is derived from it, through
    any number of [extends]: an array of TINYINT is an array of INTEGER and
    of NUMBER, and no array of FLOAT. *)
Theorem ARRAY_is_extends (obj : AbstractDataType) (type : Class) :
  ARRAY_is obj type = true
  <-> exists inner, obj = OfArray inner /\ extends (class_of_instance inner) type.
Proof.
  split.
  - destruct obj as [| | | | |inner]; try done. unfold ARRAY_is, instanceof.
    intros Hin%bool_decide_eq_true_1. exists inner. split; [done|].
    by eapply ancestors_upto_extends.
  - intros (inner & -> & Hextends). unfold ARRAY_is, instanceof.
    by apply bool_decide_eq_true_2, extends_ancestors.
Qed.

Lemma ARRAY_is_extends_witness :
  ARRAY_is (OfArray (OfNumber (Build TINYINT 0))) (NumberClassRef NUMBER) = true.
Proof.
  apply ARRAY_is_extends. eexists. split; [reflexivity|].
  apply (extends_parent _ (NumberClassRef INTEGER)); [reflexivity|].
  apply (extends_parent _ (NumberClassRef NUMBER)); [reflexivity|].
  apply extends_itself.
Defined.



(** X21. [validate] of RANGE looks at nothing but the shape: an array of
    two items passes whatever the items are, an array of any other length
    is a ValidationError, and what is no array is a ValidationError with
    another message. *)
Theorem RANGE_validate_shape (h : Heap) (value : JSValue) :
  (forall l items,
     value = VRef l -> h !! l = Some (OArray items) ->
     RANGE_validate value h
     = (if bool_decide (length items = 2) then Normal tt
        else Throw (ValidationError
                      (Msg "A range must be an array with two elements" [])), h))
  /\ (Array_isArray h value = false ->
      RANGE_validate value h
      = (Throw (ValidationError (Msg "%j is not a valid range" [value])), h)).
Proof.
  split.
  - intros l items -> Hl. unfold RANGE_validate, Array_isArray, Get, prop. run.
    rewrite Hl. cbn [negb String.eqb Ascii.eqb Bool.eqb]. cbv beta. rewrite ?Hl.
    unfold num. cbn [strict_eq Number_equal].
    destruct (Z.eqb_spec (Z.of_nat (length items)) 2);
      case_bool_decide; first [done | lia].
  - intros Harray. unfold RANGE_validate. run. by rewrite Harray.
Qed.

Lemma RANGE_validate_shape_witness :
  let h := [OArray [num 1; VNull]; OArray [num 1]] in
  RANGE_validate (VRef 0) h = (Normal tt, h)
  /\ RANGE_validate (VRef 1) h
     = (Throw (ValidationError
                 (Msg "A range must be an array with two elements" [])), h)
  /\ RANGE_validate (VString "1,2") h
     = (Throw (ValidationError (Msg "%j is not a valid range" [VString "1,2"])), h).
Proof.
  intros h. split_and!.
  - by apply (proj1 (RANGE_validate_shape h (VRef 0)) 0 [num 1; VNull]).
  - by apply (proj1 (RANGE_validate_shape h (VRef 1)) 1 [num 1]).
  - by apply (proj2 (RANGE_validate_shape h (VString "1,2"))).
Defined.

(** ** TEXT *)

(** X22. The length of a TEXT is read without regard to case.  A text
    that is tiny, medium or long in any case constructs a TEXT whose
    [length] is the text in lower case and whose SQL is TINY_TEXT,
    MEDIUM_TEXT or LONG_TEXT; any other text is a TypeError; without a
    length the SQL is TEXT.  An option bag holding the text does what the
    text does. *)
Theorem TEXT_length_any_case (h : Heap) (s : string) :
  (toLowerCase s ∈ validTextLengths ->
   TEXT_constructor (VString s) h
   = (Normal (length h), h ++ [OPlain {[ "length" := VString (toLowerCase s) ]}])
   /\ TEXT_toSql (h ++ [OPlain {[ "length" := VString (toLowerCase s) ]}]) (length h)
      = (if String.eqb (toLowerCase s) "tiny" then "TINY_TEXT"
         else if String.eqb (toLowerCase s) "medium" then "MEDIUM_TEXT"
         else "LONG_TEXT"))
  /\ (toLowerCase s ∉ validTextLengths ->
      exists m, TEXT_constructor (VString s) h = (Throw (TypeError m), h))
  /\ (forall bag props,
        h !! bag = Some (OPlain props) -> props !! "length" = Some (VString s) ->
        TEXT_constructor (VRef bag) h = TEXT_constructor (VString s) h)
  /\ (exists this h',
        TEXT_constructor VUndefined h = (Normal this, h')
        /\ TEXT_toSql h' this = "TEXT").
Proof.
  assert (Hvalid : toLowerCase s ∈ validTextLengths
            <-> existsb (fun valid => strict_eq (VString (toLowerCase s)) (VString valid))
                  validTextLengths = true).
  { unfold validTextLengths. cbn [existsb strict_eq].
    rewrite !elem_of_cons, elem_of_nil, !orb_true_iff, !String.eqb_eq.
    intuition discriminate. }
  split_and!.
  - intros Hin. apply Hvalid in Hin as Hexists. split.
    + unfold TEXT_constructor. run. cbn [typeof String.eqb Ascii.eqb Bool.eqb nullish negb andb].
      by rewrite Hexists.
    + unfold TEXT_toSql, prop. heap_simpl. cbn [own_props].
      rewrite lookup_singleton_eq. cbn [default from_option id strict_eq].
      unfold validTextLengths in Hin.
      repeat (apply elem_of_cons in Hin as [->|Hin]; [done|]).
      by apply elem_of_nil in Hin.
  - intros Hout. eexists. unfold TEXT_constructor. run.
    cbn [typeof String.eqb Ascii.eqb Bool.eqb nullish negb andb].
    destruct (existsb _ validTextLengths) eqn:Hexists; [|done].
    destruct Hout. by apply Hvalid.
  - intros bag props Hbag Hlength. unfold TEXT_constructor, Get. run.
    cbn [typeof String.eqb Ascii.eqb Bool.eqb].
    by rewrite (prop_plain _ _ _ _ Hbag), Hlength.
  - eexists _, _. split; [reflexivity|].
    unfold TEXT_toSql, prop. heap_simpl. cbn [own_props].
    by rewrite lookup_singleton_eq.
Qed.

Lemma TEXT_length_any_case_witness :
  TEXT_toSql [OPlain {[ "length" := VString "tiny" ]}] 0 = "TINY_TEXT"
  /\ exists m, TEXT_constructor (VString "huge") [] = (Throw (TypeError m), []).
Proof.
  split.
  - apply (proj1 (TEXT_length_any_case [] "TINY")).
    apply list_elem_of_here.
  - apply (proj1 (proj2 (TEXT_length_any_case [] "huge"))).
    intros Hin. repeat (apply elem_of_cons in Hin as [Hin|Hin]; [done|]).
    by apply elem_of_nil in Hin.
Defined.

(** ** BLOB *)

Lemma list_ascii_of_append (a b : string) :
  list_ascii_of_string (a +:+ b) = list_ascii_of_string a ++ list_ascii_of_string b.
Proof.
  induction a as [|x a IH]; [done|].
  change (x :: list_ascii_of_string (a +:+ b)
          = x :: (list_ascii_of_string a ++ list_ascii_of_string b)).
  by rewrite IH.
Qed.

Lemma length_append (a b : string) :
  String.length (a +:+ b) = String.length a + String.length b.
Proof.
  induction a as [|x a IH]; [done|].
  change (S (String.length (a +:+ b)) = S (String.length a + String.length b)).
  by rewrite IH.
Qed.

Lemma length_list_ascii (s : string) :
  length (list_ascii_of_string s) = String.length s.
Proof. induction s as [|c s IH]; [done|]. cbn. by rewrite IH. Qed.

Lemma hex_digit_read_back (n : nat) :
  n < 16 -> is_hex_digit (hex_digit n) = true /\ hex_value (hex_digit n) = n.
Proof.
  intros Hn. do 16 (destruct n as [|n]; [by split|]). lia.
Qed.

Lemma byte_halves (b : Z) :
  let n := Z.to_nat (b mod 256) in n / 16 < 16 /\ n mod 16 < 16.
Proof.
  intros n.
  assert (n < 256) by (unfold n; pose proof (Z.mod_pos_bound b 256); lia).
  split.
  - apply Nat.Div0.div_lt_upper_bound. lia.
  - apply Nat.mod_upper_bound. lia.
Qed.

Lemma Buffer_toString_hex_digits (bytes : list Z) :
  String.length (Buffer_toString_hex bytes) = 2 * length bytes
  /\ Forall (fun c => is_hex_digit c = true)
       (list_ascii_of_string (Buffer_toString_hex bytes)).
Proof.
  induction bytes as [|b bytes [IHlength IHdigits]]; [by split|].
  cbn [Buffer_toString_hex]. rewrite length_append, list_ascii_of_append.
  destruct (byte_halves b) as [Hhigh Hlow].
  split; [cbn [length]; unfold byte_to_hex; cbn [String.length]; lia|].
  apply Forall_app. split; [|done]. unfold byte_to_hex. cbn [list_ascii_of_string].
  repeat constructor; by apply hex_digit_read_back.
Qed.

(** X23. What [stringify] of BLOB returns is [X'], two hexadecimal
    digits in lower case for every byte of the Buffer, or for every
    character of the text, and a closing quote: between the quotes there is
    nothing but digits, so no quote and nothing to escape. *)
Theorem BLOB_stringify_hex (value : AcceptedBlob) :
  exists hex,
    BLOB_stringify value = "X'" +:+ hex +:+ "'"
    /\ String.length hex
       = 2 * match value with
             | BlobText s => String.length s
             | BlobBuffer bytes => length bytes
             end
    /\ Forall (fun c => is_hex_digit c = true /\ c <> "'"%char)
         (list_ascii_of_string hex).
Proof.
  eexists. split; [reflexivity|].
  set (buf := match value with
              | BlobText s => Buffer_from_binary s
              | BlobBuffer bytes => bytes
              end).
  destruct (Buffer_toString_hex_digits buf) as [Hlength Hdigits]. split.
  - rewrite Hlength. destruct value as [s|bytes]; [|done].
    unfold buf, Buffer_from_binary. by rewrite length_fmap, length_list_ascii.
  - eapply Forall_impl; [exact Hdigits|]. intros c Hc. split; [done|].
    by intros ->.
Qed.

Lemma byte_to_hex_inj (a b : Z) :
  (0 <= a < 256)%Z -> (0 <= b < 256)%Z -> byte_to_hex a = byte_to_hex b -> a = b.
Proof.
  intros Ha Hb. unfold byte_to_hex.
  pose proof (byte_halves a) as [Hahigh Halow].
  pose proof (byte_halves b) as [Hbhigh Hblow].
  rewrite !Z.mod_small in * by done.
  intros Hhex. injection Hhex as Hhigh Hlow.
  apply (f_equal hex_value) in Hhigh, Hlow.
  change (hex_value (hex_digit (Z.to_nat a / 16))
          = hex_value (hex_digit (Z.to_nat b / 16))) in Hhigh.
  change (hex_value (hex_digit (Z.to_nat a mod 16))
          = hex_value (hex_digit (Z.to_nat b mod 16))) in Hlow.
  rewrite (proj2 (hex_digit_read_back _ Hahigh)),
    (proj2 (hex_digit_read_back _ Hbhigh)) in Hhigh.
  rewrite (proj2 (hex_digit_read_back _ Halow)),
    (proj2 (hex_digit_read_back _ Hblow)) in Hlow.
  assert (Z.to_nat a = Z.to_nat b) as Hab.
  { rewrite (Nat.div_mod_eq (Z.to_nat a) 16), (Nat.div_mod_eq (Z.to_nat b) 16).
    by rewrite Hhigh, Hlow. }
  lia.
Qed.

(** X24. [stringify] of BLOB loses nothing: two Buffers give the same
    literal only when they hold the same bytes. *)
Theorem BLOB_stringify_injective (a b : list Z) :
  Forall (fun x => (0 <= x < 256)%Z) a -> Forall (fun x => (0 <= x < 256)%Z) b ->
  BLOB_stringify (BlobBuffer a) = BLOB_stringify (BlobBuffer b) <-> a = b.
Proof.
  intros Ha Hb. split; [|by intros ->].
  unfold BLOB_stringify, BLOB__hexify. intros [= Hhex].
  revert b Hb Hhex. induction Ha as [|x a Hx Ha IH]; intros b Hb Hhex.
  - destruct Hb as [|y b Hy Hb]; [done|]. discriminate Hhex.
  - destruct Hb as [|y b Hy Hb]; [discriminate Hhex|].
    cbn [Buffer_toString_hex] in Hhex. rewrite !append_assoc in Hhex.
    injection Hhex as Hhigh Hlow Hrest.
    f_equal.
    + apply byte_to_hex_inj; [done..|].
      exact (f_equal2 (fun high low => String high (String low EmptyString))
               Hhigh Hlow).
    + by apply IH.
Qed.

Lemma BLOB_stringify_injective_witness :
  BLOB_stringify (BlobBuffer [0; 255]%Z) = "X'00ff'"
  /\ BLOB_stringify (BlobBuffer [0; 255]%Z) <> BLOB_stringify (BlobBuffer [255; 0]%Z).
Proof.
  split; [reflexivity|].
  intros Hsame.
  apply (BLOB_stringify_injective [0; 255]%Z [255; 0]%Z) in Hsame;
    [discriminate Hsame | repeat constructor; lia..].
Defined.

(** ** The dialect names of a class *)

Lemma types_of_other {Meta : Type} (this dialect : string) (types : Meta)
  (registry : gmap string (gmap string Meta)) (other : string) :
  this ∉ static_chain other ->
  types_of (kSetDialectNames this dialect types registry) other
  = types_of registry other.
Proof.
  unfold types_of, kSetDialectNames.
  induction (static_chain other) as [|class chain IH]; [done|].
  intros [Hclass Hchain]%not_elem_of_cons. cbn [omap list_omap].
  rewrite lookup_insert_ne by done.
  destruct (registry !! class); [done|]. by apply IH.
Qed.

Lemma existsb_eqb_elem_of (name : string) (names : list string) :
  existsb (String.eqb name) names = false -> name ∉ names.
Proof.
  induction names as [|x names IH]; cbn [existsb].
  - intros _. apply not_elem_of_nil.
  - intros [Hx Hnames]%orb_false_iff. apply not_elem_of_cons. split.
    + by apply String.eqb_neq.
    + by apply IH.
Qed.

Lemma static_chain_acyclic (this parent : string) :
  parent ∈ tail (static_chain this) -> this ∉ static_chain parent.
Proof.
  unfold static_chain at 1. cbn [static_chain_upto tail].
  destruct (extended_by this) as [direct|] eqn:Hdirect;
    [|by intros ?%elem_of_nil].
  unfold extended_by in Hdirect.
  destruct (find _ extends_clauses) as [[c p]|] eqn:Hfind; [|done].
  injection Hdirect as <-. apply find_some in Hfind as [Hin Hname].
  apply String.eqb_eq in Hname. cbn [fst snd] in *. subst c.
  assert (Hacyclic : extends_acyclic = true) by (by vm_compute).
  unfold extends_acyclic in Hacyclic.
  rewrite forallb_forall in Hacyclic. specialize (Hacyclic _ Hin).
  rewrite forallb_forall in Hacyclic. cbn [fst snd] in Hacyclic.
  intros Hparent. apply existsb_eqb_elem_of, negb_true_iff, Hacyclic.
  by apply list_elem_of_In.
Qed.

(** X25. Giving a class its names for a dialect changes the [types] of no
    class that is not derived from it; the classes it is itself derived
    from, its parent first of all, are among these. *)
Theorem kSetDialectNames_leaves_parents {Meta : Type} (this dialect : string)
  (types : Meta) (registry : gmap string (gmap string Meta)) :
  (forall other,
     this ∉ static_chain other ->
     types_of (kSetDialectNames this dialect types registry) other
     = types_of registry other)
  /\ (forall parent,
        parent ∈ tail (static_chain this) ->
        types_of (kSetDialectNames this dialect types registry) parent
        = types_of registry parent).
Proof.
  split.
  - intros other. apply types_of_other.
  - intros parent Hparent. by apply types_of_other, static_chain_acyclic.
Qed.

Lemma kSetDialectNames_leaves_parents_witness :
  let registry : gmap string (gmap string string) :=
    {[ "NUMBER" := {[ "mysql" := "DOUBLE" ]} ]} in
  types_of (kSetDialectNames "INTEGER" "mysql" "INT" registry) "NUMBER"
  = types_of registry "NUMBER".
Proof.
  intros registry.
  apply (proj2 (kSetDialectNames_leaves_parents "INTEGER" "mysql" "INT" registry)).
  apply list_elem_of_here.
Defined.

(** X26. After a class was given its names for a dialect, its own
    [types] hold them, next to the names it was given before; names that
    it only inherited until then are no longer seen, for it starts from an
    empty object of its own.  A derived class without [types] of its own
    sees those of the class, and names for two dialects can be given in
    either order. *)
Theorem kSetDialectNames_own_types {Meta : Type} (this dialect : string)
  (types : Meta) (registry : gmap string (gmap string Meta)) :
  let registered := kSetDialectNames this dialect types registry in
  types_of registered this
  = Some (<[dialect := types]> (default ∅ (registry !! this)))
  /\ (registry !! this = None ->
      forall other, other <> dialect ->
        (types_of registered this ≫= (.!! other)) = None)
  /\ (forall derived,
        extended_by derived = Some this -> derived <> this ->
        registry !! derived = None ->
        types_of registered derived = types_of registered this)
  /\ (forall dialect' types',
        dialect <> dialect' ->
        kSetDialectNames this dialect' types' registered
        = kSetDialectNames this dialect types
            (kSetDialectNames this dialect' types' registry)).
Proof.
  intros registered.
  assert (Hown : types_of registered this
                 = Some (<[dialect := types]> (default ∅ (registry !! this)))).
  { unfold types_of, static_chain. cbn [static_chain_upto omap list_omap].
    unfold registered, kSetDialectNames. rewrite lookup_insert_eq.
    by destruct (registry !! this). }
  split_and!.
  - exact Hown.
  - intros Hnone other Hother. rewrite Hown, Hnone. cbn.
    by rewrite lookup_insert_ne, lookup_empty.
  - intros derived Hderived Hne Hnone. rewrite Hown.
    unfold types_of, static_chain. cbn [static_chain_upto omap list_omap].
    rewrite Hderived. cbn [static_chain_upto omap list_omap].
    unfold registered, kSetDialectNames.
    rewrite lookup_insert_ne, Hnone, lookup_insert_eq by done.
    by destruct (registry !! this).
  - intros dialect' types' Hdialect. unfold registered, kSetDialectNames.
    rewrite !lookup_insert_eq, !insert_insert_eq. f_equal.
    by apply insert_insert_ne.
Qed.

Lemma kSetDialectNames_own_types_witness :
  let registry : gmap string (gmap string string) :=
    {[ "NUMBER" := {[ "postgres" := "NUMERIC" ]} ]} in
  let registered := kSetDialectNames "INTEGER" "mysql" "INT" registry in
  (types_of registered "INTEGER" ≫= (.!! "postgres")) = None
  /\ types_of registered "TINYINT" = types_of registered "INTEGER".
Proof.
  intros registry registered.
  destruct (kSetDialectNames_own_types "INTEGER" "mysql" "INT" registry)
    as (_ & Hmasked & Hderived & _).
  split.
  - by apply Hmasked.
  - by apply Hderived.
Defined.

(** ** Warnings *)

Lemma warn_printed (link text : string) (w : Warnings) :
  printedWarnings (warn link text w) = {[ text ]} ∪ printedWarnings w.
Proof.
  unfold warn. destruct (decide _) as [Hold|]; [|done].
  apply set_eq. intros x. rewrite elem_of_union, elem_of_singleton.
  split; [by right|]. by intros [->|].
Qed.

Lemma warn_logged_once (link text : string) (w : Warnings) :
  length (logged w) = size (printedWarnings w) ->
  length (logged (warn link text w)) = size (printedWarnings (warn link text w)).
Proof.
  intros Hw. unfold warn. destruct (decide _) as [|Hnew]; [done|]. cbn.
  rewrite length_app, size_union, size_singleton; [cbn; lia|].
  by apply disjoint_singleton_l.
Qed.

(** X27. A warning is logged once for a text: after any run of calls of
    [warn] the texts that were printed are the texts of the calls, there is
    one logged line for each of them, however often it came, and a further
    call with one of these texts does nothing, even when its link is
    another. *)
Theorem warn_once (calls : list (string * string)) :
  let w := warn_each calls no_warnings in
  printedWarnings w = list_to_set calls.*2
  /\ length (logged w) = size (printedWarnings w)
  /\ forall link text, text ∈ calls.*2 -> warn link text w = w.
Proof.
  assert (Hgeneral : forall w0,
            length (logged w0) = size (printedWarnings w0) ->
            printedWarnings (warn_each calls w0)
            = printedWarnings w0 ∪ list_to_set calls.*2
            /\ length (logged (warn_each calls w0))
               = size (printedWarnings (warn_each calls w0))).
  { induction calls as [|[link text] calls IH]; intros w0 Hw0.
    - cbn. split; [by rewrite (right_id_L ∅ (∪))|done].
    - cbn [warn_each foldl fst snd].
      destruct (IH (warn link text w0) (warn_logged_once _ _ _ Hw0))
        as [Hprinted Hlogged].
      split; [|exact Hlogged].
      unfold warn_each in Hprinted. rewrite Hprinted, warn_printed. cbn.
      by rewrite (comm_L (∪) {[ text ]} (printedWarnings w0)), (assoc_L (∪)). }
  intros w. destruct (Hgeneral no_warnings eq_refl) as [Hprinted Hlogged].
  fold w in Hprinted, Hlogged. split_and!.
  - rewrite Hprinted. cbn. by rewrite (left_id_L ∅ (∪)).
  - done.
  - intros link text Htext. unfold warn. rewrite decide_True; [done|].
    rewrite Hprinted. apply elem_of_union_r. by apply elem_of_list_to_set.
Qed.

Lemma warn_once_witness :
  let w := warn_each [("link1", "a"); ("link2", "a"); ("link3", "b")] no_warnings in
  warn "link4" "a" w = w.
Proof.
  intros w.
  apply (proj2 (proj2 (warn_once [("link1", "a"); ("link2", "a"); ("link3", "b")]))).
  apply list_elem_of_here.
Defined.
